(** * Mesh messenger skeleton and body-age estimator: a shallow embedding

  The Go packages [message], [network] and [node] of the mesh messenger
  and the JavaScript utility [calculateBodyAge] of the web backend are
  embedded as Rocq functions, package by package, and the properties the
  specification states about them are settled against these functions.
  The program [main], the token middleware, the profile route that calls
  the estimator and the blood-pressure ranges are embedded the same way,
  with the properties their code shows. *)

From Stdlib Require Import ZArith NArith List Strings.String Strings.Ascii Strings.Byte Bool Lia.
From Stdlib Require Import Floats.SpecFloat Floats.PrimFloat Floats.FloatOps.
From stdpp Require Import base gmap strings list.

Local Open Scope string_scope.
Local Open Scope list_scope.

(** ** Go prelude *)

(** Go's [error] interface, observed through [Error()]; [None] is [nil]. *)
Definition error := string.

(** [[]byte(s)]: the bytes of a Go string. *)
Definition bytes_of_string (s : string) : list byte := list_byte_of_string s.

(** *** package time

  [time.Time] is opaque; it is modelled by what its accessors return
  ([Date], [Clock], [Nanosecond], the offset of [Zone]) together with the
  two further parts of the value that [==] and [reflect.DeepEqual]
  compare: its [Location], and the monotonic clock reading that
  [time.Now] attaches to the value. Two values that differ as records
  differ for [==] and for [reflect.DeepEqual]; two that are equal as
  records are deeply equal ([==] compares the pointer of the location
  besides). The instant of a value, which is what [Equal] compares, is a
  function of the date, the clock, the nanoseconds and the offset. *)
Module time.

(** A [*Location] as far as two values are told apart by it: [UTC], the
    system's [Local], or another location, known by its name (a location
    of [LoadLocation], or a fixed zone of [FixedZone], whose name may be
    empty). *)
Inductive Location :=
| UTC
| Local
| Zone (name : string).

Record Time := {
  year : Z; month : Z; day : Z;
  hour : Z; minute : Z; second : Z;
  nanosecond : Z;
  offset : Z;                (* seconds east of UTC *)
  location : Location;
  monotonic : option Z       (* monotonic clock reading, if any *)
}.

(** ['0' + byte(u)] *)
Definition digit (u : Z) : ascii := ascii_of_N (Z.to_N (48 + u)).

(** The [k] low-order decimal digits of [u], most significant first. *)
Fixpoint decimal (k : nat) (u : Z) : list ascii :=
  match k with
  | O => []
  | S k' => decimal k' (u / 10) ++ [digit (u mod 10)]
  end.

(** The number of decimal digits of [u], as [appendInt] counts them. *)
Fixpoint numDigits_loop (fuel : nat) (u : Z) : nat :=
  match fuel with
  | O => O
  | S fuel' => if (0 <? u)%Z then S (numDigits_loop fuel' (u / 10)) else O
  end.

Definition numDigits (u : Z) : nat :=
  if (u =? 0)%Z then 1%nat else numDigits_loop (S (Z.to_nat (Z.log2 u))) u.

(** [appendInt]: the decimal form of [x], zero-padded to [width] digits,
    that is its [max width n] low-order digits, after a minus sign if
    [x] is negative. *)
Definition appendInt (x : Z) (width : nat) : list ascii :=
  (if (x <? 0)%Z then ["-"%char] else []) ++
  decimal (Nat.max width (numDigits (Z.abs x))) (Z.abs x).

(** [l] without the zeros at its head. *)
Fixpoint dropZeros (l : list ascii) : list ascii :=
  match l with
  | c :: rest => if Ascii.eqb c "0" then dropZeros rest else l
  | [] => []
  end.

(** [appendNano] for the layout [.999999999]: nothing for zero, otherwise
    a dot and nine digits with the trailing zeros removed, and the dot too
    if nothing follows it. *)
Definition appendNano (nanosec : Z) : list ascii :=
  if (nanosec =? 0)%Z then []
  else
    let b := "."%char :: appendInt nanosec 9 in
    let b := rev (dropZeros (rev b)) in
    match rev b with
    | "."%char :: r => rev r
    | _ => b
    end.

(** The zone of [appendFormatRFC3339]: [Z] for UTC, otherwise the sign and
    the offset in hours and minutes. *)
Definition appendZone (offset : Z) : list ascii :=
  if (offset =? 0)%Z then ["Z"%char]
  else
    let zone := Z.quot offset 60 in
    let sign := if (zone <? 0)%Z then "-"%char else "+"%char in
    let zone := if (zone <? 0)%Z then (- zone)%Z else zone in
    [sign] ++ appendInt (zone / 60) 2 ++ [":"%char] ++ appendInt (zone mod 60) 2.

(** [appendFormatRFC3339] with nanoseconds. *)
Definition appendFormatRFC3339 (t : Time) : list ascii :=
  appendInt (year t) 4 ++ ["-"%char] ++ appendInt (month t) 2 ++ ["-"%char] ++
  appendInt (day t) 2 ++ ["T"%char] ++
  appendInt (hour t) 2 ++ [":"%char] ++ appendInt (minute t) 2 ++ [":"%char] ++
  appendInt (second t) 2 ++
  appendNano (nanosecond t) ++
  appendZone (offset t).

Definition isDigit (c : ascii) : bool :=
  (48 <=? N_of_ascii c)%N && (N_of_ascii c <=? 57)%N.

(** [num2]: [10*(b[0]-'0') + (b[1]-'0')] in byte arithmetic, the value of
    two decimal digits. *)
Definition num2 (c1 c2 : ascii) : N :=
  ((10 * (N_of_ascii c1 + 256 - 48) + (N_of_ascii c2 + 256 - 48)) mod 256)%N.

(** [appendStrictRFC3339]: the year must be four digits wide and the
    hour of the zone offset below 24. *)
Definition appendStrictRFC3339 (t : Time) : list ascii + error :=
  let b := appendFormatRFC3339 t in
  let n := length b in
  if negb (Ascii.eqb (nth 4 b "000"%char) "-")
  then inr "year outside of range [0,9999]"
  else if negb (Ascii.eqb (nth (n - 1) b "000"%char) "Z")
            && (isDigit (nth (n - 6) b "000"%char)
                || (24 <=? num2 (nth (n - 5) b "000"%char) (nth (n - 4) b "000"%char))%N)
  then inr "timezone hour outside of range [0,23]"
  else inl b.

(** [Time.MarshalJSON]: the strict RFC 3339 form between quotes. *)
Definition MarshalJSON (t : Time) : list ascii + error :=
  match appendStrictRFC3339 t with
  | inl b => inl ("034"%char :: b ++ ["034"%char])
  | inr err => inr (String.append "Time.MarshalJSON: " err)
  end.

End time.

(** *** package crypto/rand and encoding/hex *)
Module rand.

(** [rand.Reader], as the bytes it delivers before it ends. *)
Definition Source := list byte.

(** [io.ReadFull(Reader, b)] on a buffer of [n] bytes: the buffer
    entirely filled, or the error of a reader that ends early
    ([io.EOF] before the first byte, [io.ErrUnexpectedEOF] after it). *)
Definition Read (src : Source) (n : nat) : (list byte * Source) + error :=
  if (n <=? length src)%nat
  then inl (firstn n src, skipn n src)
  else inr (if (length src =? 0)%nat then "EOF" else "unexpected EOF").


End rand.

Module hex.

Definition hextable : list ascii := list_ascii_of_string "0123456789abcdef".

Definition digit (v : N) : ascii := nth (N.to_nat v) hextable "0"%char.

(** [dst[j] = hextable[v>>4]; dst[j+1] = hextable[v&0x0f]] *)
Fixpoint EncodeToString (src : list byte) : string :=
  match src with
  | [] => EmptyString
  | v :: rest =>
      String (digit (N.shiftr (Byte.to_N v) 4))
        (String (digit (N.land (Byte.to_N v) 15)) (EncodeToString rest))
  end.

Definition is_hex_digit (c : ascii) : bool :=
  existsb (Ascii.eqb c) hextable.

Fixpoint all_hex (s : string) : bool :=
  match s with
  | EmptyString => true
  | String c rest => is_hex_digit c && all_hex rest
  end.

(** [fromHexChar] and [DecodeString], the package's own inverse. *)
Definition fromHexChar (c : ascii) : option N :=
  let n := N_of_ascii c in
  if (48 <=? n)%N && (n <=? 57)%N then Some (n - 48)%N
  else if (97 <=? n)%N && (n <=? 102)%N then Some (n - 97 + 10)%N
  else if (65 <=? n)%N && (n <=? 70)%N then Some (n - 65 + 10)%N
  else None.

Fixpoint DecodeString (s : string) : option (list byte) :=
  match s with
  | EmptyString => Some []
  | String a (String b rest) =>
      match fromHexChar a, fromHexChar b, DecodeString rest with
      | Some x, Some y, Some r =>
          match Byte.of_N (N.lor (N.shiftl x 4) y) with
          | Some v => Some (v :: r)
          | None => None
          end
      | _, _, _ => None
      end
  | String _ EmptyString => None
  end.

End hex.


(** *** package unicode/utf8 *)
Module utf8.

Definition RuneError : N := 0xFFFD.

(** The table [first], by ranges of the first byte: [0xF0] marks ASCII,
    [0xF1] an invalid first byte; otherwise the low bits give the size of
    the encoding and the high bits select the range of the second byte. *)
Definition first (b : N) : N :=
  if (b <? 0x80)%N then 0xF0
  else if (b <? 0xC2)%N then 0xF1
  else if (b <? 0xE0)%N then 0x02
  else if (b =? 0xE0)%N then 0x13
  else if (b <? 0xED)%N then 0x03
  else if (b =? 0xED)%N then 0x23
  else if (b <? 0xF0)%N then 0x03
  else if (b =? 0xF0)%N then 0x34
  else if (b <? 0xF4)%N then 0x04
  else if (b =? 0xF4)%N then 0x44
  else 0xF1.

Definition acceptRanges (i : N) : N * N :=
  match i with
  | 0 => (0x80, 0xBF)
  | 1 => (0xA0, 0xBF)
  | 2 => (0x80, 0x9F)
  | 3 => (0x90, 0xBF)
  | _ => (0x80, 0x8F)
  end%N.

(** [s[i]] *)
Definition at_ (s : list ascii) (i : nat) : N := N_of_ascii (nth i s "000"%char).

(** [DecodeRuneInString]: the first rune of [s] and its width in bytes;
    [(RuneError, 1)] for an invalid encoding. *)
Definition DecodeRuneInString (s : list ascii) : N * nat :=
  match s with
  | [] => (RuneError, 0%nat)
  | _ :: _ =>
      let s0 := at_ s 0 in
      let x := first s0 in
      if (0xF0 <=? x)%N then ((if N.odd x then RuneError else s0), 1%nat)
      else
        let sz := N.to_nat (N.land x 7) in
        let '(lo, hi) := acceptRanges (N.shiftr x 4) in
        if (length s <? sz)%nat then (RuneError, 1%nat)
        else
          let s1 := at_ s 1 in
          if (s1 <? lo)%N || (hi <? s1)%N then (RuneError, 1%nat)
          else if (sz <=? 2)%nat
          then (N.lor (N.shiftl (N.land s0 0x1F) 6) (N.land s1 0x3F), 2%nat)
          else
            let s2 := at_ s 2 in
            if (s2 <? 0x80)%N || (0xBF <? s2)%N then (RuneError, 1%nat)
            else if (sz <=? 3)%nat
            then (N.lor (N.lor (N.shiftl (N.land s0 0x0F) 12)
                               (N.shiftl (N.land s1 0x3F) 6))
                        (N.land s2 0x3F), 3%nat)
            else
              let s3 := at_ s 3 in
              if (s3 <? 0x80)%N || (0xBF <? s3)%N then (RuneError, 1%nat)
              else (N.lor (N.lor (N.lor (N.shiftl (N.land s0 0x07) 18)
                                        (N.shiftl (N.land s1 0x3F) 12))
                                 (N.shiftl (N.land s2 0x3F) 6))
                          (N.land s3 0x3F), 4%nat)
  end.

(** [ValidString]: every rune of [s] decodes. *)
Fixpoint Valid (s : list ascii) : bool :=
  match s with
  | [] => true
  | c :: rest =>
      if (N_of_ascii c <? 0x80)%N then Valid rest
      else
        match snd (DecodeRuneInString s), rest with
        | 2%nat, _ :: r2 => Valid r2
        | 3%nat, _ :: _ :: r3 => Valid r3
        | 4%nat, _ :: _ :: _ :: r4 => Valid r4
        | _, _ => false
        end
  end.

Definition ValidString (s : string) : bool := Valid (list_ascii_of_string s).

End utf8.

(** *** package encoding/base64: [StdEncoding] *)
Module base64.

Definition encodeStd : list ascii :=
  list_ascii_of_string
    "ABCDEFGHIJKLMNOPQRSTUVWXYZabcdefghijklmnopqrstuvwxyz0123456789+/".

(** Six bits, most significant first. *)
Definition sextet : Type := bool * bool * bool * bool * bool * bool.

Definition index (v : sextet) : nat :=
  let '(b5, b4, b3, b2, b1, b0) := v in
  (32 * Nat.b2n b5 + 16 * Nat.b2n b4 + 8 * Nat.b2n b3
   + 4 * Nat.b2n b2 + 2 * Nat.b2n b1 + Nat.b2n b0)%nat.

Definition encodeChar (v : sextet) : ascii := nth (index v) encodeStd "="%char.

(** [Encode]: three bytes give four characters; one or two remaining bytes
    are padded with [=]. The bits of a byte [Ascii a0 .. a7] are listed
    from the least significant. *)
Fixpoint Encode (src : list ascii) : list ascii :=
  match src with
  | Ascii a0 a1 a2 a3 a4 a5 a6 a7 :: Ascii b0 b1 b2 b3 b4 b5 b6 b7
      :: Ascii c0 c1 c2 c3 c4 c5 c6 c7 :: rest =>
      encodeChar (a7, a6, a5, a4, a3, a2) :: encodeChar (a1, a0, b7, b6, b5, b4)
      :: encodeChar (b3, b2, b1, b0, c7, c6) :: encodeChar (c5, c4, c3, c2, c1, c0)
      :: Encode rest
  | [Ascii a0 a1 a2 a3 a4 a5 a6 a7; Ascii b0 b1 b2 b3 b4 b5 b6 b7] =>
      [encodeChar (a7, a6, a5, a4, a3, a2); encodeChar (a1, a0, b7, b6, b5, b4);
       encodeChar (b3, b2, b1, b0, false, false); "="%char]
  | [Ascii a0 a1 a2 a3 a4 a5 a6 a7] =>
      [encodeChar (a7, a6, a5, a4, a3, a2); encodeChar (a1, a0, false, false, false, false);
       "="%char; "="%char]
  | [] => []
  end.

End base64.

(** *** package encoding/json: what [Marshal] does on the fields of a
    [Message] *)
Module json.

Definition hex : list ascii := list_ascii_of_string "0123456789abcdef".

Definition hexdigit (v : N) : ascii := nth (N.to_nat v) hex "0"%char.

Definition lit (s : string) : list ascii := list_ascii_of_string s.

Definition quote : ascii := "034"%char.
Definition backslash : ascii := "092"%char.

(** [htmlSafeSet]: the ASCII characters written as they are: all from the
    space on, except the quote, the backslash and [<], [>], [&]. *)
Definition htmlSafeSet (b : N) : bool :=
  (0x20 <=? b)%N && (b <? 0x80)%N &&
  negb ((b =? 0x22) || (b =? 0x26) || (b =? 0x3C) || (b =? 0x3E) || (b =? 0x5C))%N.

(** The escape of an ASCII byte outside [htmlSafeSet]. *)
Definition escapeASCII (c : ascii) : list ascii :=
  let b := N_of_ascii c in
  if ((b =? 0x5C) || (b =? 0x22))%N then [backslash; c]
  else if (b =? 0x08)%N then [backslash; "b"%char]
  else if (b =? 0x0C)%N then [backslash; "f"%char]
  else if (b =? 0x0A)%N then [backslash; "n"%char]
  else if (b =? 0x0D)%N then [backslash; "r"%char]
  else if (b =? 0x09)%N then [backslash; "t"%char]
  else [backslash; "u"%char; "0"%char; "0"%char;
        hexdigit (N.shiftr b 4); hexdigit (N.land b 0xF)].

(** The loop of [appendString] with [escapeHTML] set: safe ASCII is copied,
    other ASCII escaped, an invalid byte becomes the escape of U+FFFD, U+2028 and
    U+2029 are escaped, and any other rune is copied with all its bytes. *)
Fixpoint appendStringBody (src : list ascii) : list ascii :=
  match src with
  | [] => []
  | c :: rest =>
      if (N_of_ascii c <? 0x80)%N then
        (if htmlSafeSet (N_of_ascii c) then [c] else escapeASCII c)
        ++ appendStringBody rest
      else
        let '(r, size) := utf8.DecodeRuneInString src in
        if (r =? utf8.RuneError)%N && (size =? 1)%nat then
          backslash :: lit "ufffd" ++ appendStringBody rest
        else
          let escaped := (r =? 0x2028)%N || (r =? 0x2029)%N in
          let esc := backslash :: lit "u202" ++ [hexdigit (N.land r 0xF)] in
          match size, rest with
          | 2%nat, c1 :: r2 =>
              (if escaped then esc else [c; c1]) ++ appendStringBody r2
          | 3%nat, c1 :: c2 :: r3 =>
              (if escaped then esc else [c; c1; c2]) ++ appendStringBody r3
          | 4%nat, c1 :: c2 :: c3 :: r4 =>
              (if escaped then esc else [c; c1; c2; c3]) ++ appendStringBody r4
          | _, _ => (if escaped then esc else [c]) ++ appendStringBody rest
          end
  end.

Definition appendString (src : string) : list ascii :=
  quote :: appendStringBody (list_ascii_of_string src) ++ [quote].

(** [encodeByteSlice]: [null] for a nil slice, otherwise the standard
    base64 form between quotes. *)
Definition encodeByteSlice (s : option (list byte)) : list ascii :=
  match s with
  | None => lit "null"
  | Some b => quote :: base64.Encode (map ascii_of_byte b) ++ [quote]
  end.

(** The name of a struct field and its colon; the first field follows the
    opening brace, the others a comma. *)
Definition field (first : bool) (name : string) : list ascii :=
  (if first then "{"%char else ","%char)
  :: quote :: list_ascii_of_string name ++ [quote; ":"%char].

End json.
(** ** package message (message.go) *)
Module message.

(** [type MessageType string] with its three constants. *)
Definition MessageType := string.
Definition TextMessage : MessageType := "text".
Definition StatusMessage : MessageType := "status".
Definition DiscoveryMessage : MessageType := "discovery".

(** [Payload] is a slice: [None] is the nil slice. *)
Record Message := {
  ID : string;
  Type_ : MessageType;
  From : string;
  To : string;
  Timestamp : time.Time;
  Payload : option (list byte)
}.

(** [NewTextMessage]; [now] is the value [time.Now()] returns. *)
Definition NewTextMessage (now : time.Time) (from to content : string)
  : Message * option error :=
  ({| ID := "temp-id";
      Type_ := TextMessage;
      From := from;
      To := to;
      Timestamp := now;
      Payload := Some (bytes_of_string content) |}, None).

(** [ToJSON]: [json.Marshal] of the struct: the six fields in the order
    of their declaration under the names of their tags; the error of the
    timestamp's [MarshalJSON], if any, is the error of the call. *)
Definition ToJSON (m : Message) : list byte + error :=
  match time.MarshalJSON (Timestamp m) with
  | inr err =>
      inr (String.append "json: error calling MarshalJSON for type time.Time: " err)
  | inl ts =>
      inl (map byte_of_ascii
             (json.field true "id" ++ json.appendString (ID m) ++
              json.field false "type" ++ json.appendString (Type_ m) ++
              json.field false "from" ++ json.appendString (From m) ++
              json.field false "to" ++ json.appendString (To m) ++
              json.field false "timestamp" ++ ts ++
              json.field false "payload" ++ json.encodeByteSlice (Payload m) ++
              ["}"%char]))
  end.

End message.

(** ** package network (transport.go) *)
Module network.

(** The operating system's side of the sockets: listeners and accepted
    connections are handles, each open or closed. *)
Record NetState := {
  listeners : list bool;    (* handle h is open iff listeners !! h = Some true *)
  conns : list bool
}.

Definition ErrClosed : error := "use of closed network connection".
Definition ErrAddrInUse : error := "bind: address already in use".

(** The [Error()] of a [net.OpError] for an operation on a TCP listener: the
    operation, the network, the address of the listener and the error it
    wraps. *)
Definition OpError (op a : string) (err : error) : error :=
  String.append op (String.append " tcp " (String.append a (String.append ": " err))).

(** The address of a listener on [addr] as its [Addr().String()] gives
    it: an empty host is the wildcard address, written [[::]] on a host
    with IPv6 (and [0.0.0.0] on one without). *)
Definition laddr (addr : string) : string :=
  match addr with
  | String ":" _ => String.append "[::]" addr
  | _ => addr
  end.

(** [net.Listener.Close] of the listener [h], whose address is [a]: the
    first call releases the socket, a later one reports [net.ErrClosed]
    in a [*net.OpError]. *)
Definition listener_Close (a : string) (h : nat) (ns : NetState)
  : NetState * option error :=
  match listeners ns !! h with
  | Some true =>
      ({| listeners := <[h := false]> (listeners ns); conns := conns ns |}, None)
  | _ => (ns, Some (OpError "close" a ErrClosed))
  end.

(** [net.Conn.Close]. The error of a later close is given by what it
    wraps; no caller looks at it. *)
Definition conn_Close (c : nat) (ns : NetState) : NetState * option error :=
  match conns ns !! c with
  | Some true =>
      ({| listeners := listeners ns; conns := <[c := false]> (conns ns) |}, None)
  | _ => (ns, Some ErrClosed)
  end.

Record tcpTransport := {
  listener : option nat;     (* nil until Listen has bound the socket *)
  addr : string
}.

Definition NewTransport (a : string) : tcpTransport * option error :=
  ({| listener := None; addr := a |}, None).

(** [Close] *)
Definition Close (t : tcpTransport) (ns : NetState) : NetState * option error :=
  match listener t with
  | Some h => listener_Close (laddr (addr t)) h ns
  | None => (ns, None)
  end.

(** [handleConn]: prints the remote address; the deferred [conn.Close()]
    runs when the function returns. *)
Definition handleConn (c : nat) (ns : NetState) (out : list string)
  : NetState * list string :=
  let out' := out ++ ["Accepted connection from peer"] in
  (fst (conn_Close c ns), out').

End network.

(** ** package node (peer.go and the Node file) *)
Module peer.

Record Peer := {
  ID : string;
  conn : nat;
  lastSeen : time.Time
}.

(** [NewPeer]: [ID] keeps its zero value. *)
Definition NewPeer (now : time.Time) (c : nat) : Peer :=
  {| ID := ""; conn := c; lastSeen := now |}.

End peer.

Module node.

Record Node := {
  ID : string;
  transport : network.tcpTransport;
  peers : gmap string peer.Peer
}.

(** [NewNode]. The error of [rand.Read] is returned as the code is written;
    built with Go 1.24 or later the process has ended inside [rand.Read]
    by then (see [rand.release]). *)
Definition NewNode (src : rand.Source) : Node + error :=
  match rand.Read src 16 with
  | inr err => inr err
  | inl (rawID, _) =>
      let ID := hex.EncodeToString rawID in
      match network.NewTransport ":8080" with
      | (_, Some err) => inr err
      | (transport, None) =>
          inl {| ID := ID; transport := transport; peers := ∅ |}
      end
  end.

(** The goroutines of the process, each at a program point: [Listen]
    before [net.Listen], [Listen] inside its accept loop, [handleConn]
    on an accepted connection, or finished. *)
Inductive task :=
| TListen
| TAccept
| THandle (c : nat)
| TDone.

(** The running process: the node, the sockets, the goroutines that
    [go] statements have launched, and standard output. *)
Record World := {
  self : Node;
  net : network.NetState;
  tasks : list task;
  out : list string
}.

Definition boot (n : Node) : World :=
  {| self := n;
     net := {| network.listeners := []; network.conns := [] |};
     tasks := [];
     out := [] |}.

(** [Start]: [go n.transport.Listen()], a line of output, [return nil]. *)
Definition Start (w : World) : World * option error :=
  ({| self := self w;
      net := net w;
      tasks := tasks w ++ [TListen];
      out := out w ++ ["Node transport started."] |}, None).

(** [Stop]: [return n.transport.Close()]. *)
Definition Stop (w : World) : World * option error :=
  let '(ns, err) := network.Close (transport (self w)) (net w) in
  ({| self := self w; net := ns; tasks := tasks w; out := out w |}, err).

Definition set_listener (n : Node) (h : nat) : Node :=
  {| ID := ID n;
     transport := {| network.listener := Some h;
                     network.addr := network.addr (transport n) |};
     peers := peers n |}.

(** Whether some open listener holds the port. *)
Definition port_busy (ns : network.NetState) : bool :=
  existsb (fun b => b) (network.listeners ns).

(** What the environment answers to a blocking call: [net.Listen]
    succeeds or fails, [Accept] delivers a connection or fails. *)
Inductive outcome :=
| Succeeds
| Fails (e : error).

(** One scheduling step of goroutine [i] under answer [o]. *)
Definition run (i : nat) (o : outcome) (w : World) : World :=
  match tasks w !! i with
  | Some TListen =>
      let o := match o with
               | Succeeds => if port_busy (net w) then Fails network.ErrAddrInUse else Succeeds
               | Fails e => Fails e
               end in
      match o with
      | Fails _ =>
          (* if err != nil { return err } *)
          {| self := self w; net := net w;
             tasks := <[i := TDone]> (tasks w); out := out w |}
      | Succeeds =>
          (* t.listener = ln *)
          let h := length (network.listeners (net w)) in
          {| self := set_listener (self w) h;
             net := {| network.listeners := network.listeners (net w) ++ [true];
                       network.conns := network.conns (net w) |};
             tasks := <[i := TAccept]> (tasks w);
             out := out w ++ [String.append "Transport listening on " (network.addr (transport (self w)))] |}
      end
  | Some TAccept =>
      let open := match network.listener (transport (self w)) with
                  | Some h => bool_decide (network.listeners (net w) !! h = Some true)
                  | None => false
                  end in
      match o with
      | Succeeds =>
          if open then
            (* go t.handleConn(conn) *)
            let c := length (network.conns (net w)) in
            {| self := self w;
               net := {| network.listeners := network.listeners (net w);
                         network.conns := network.conns (net w) ++ [true] |};
               tasks := tasks w ++ [THandle c];
               out := out w |}
          else
            (* Accept on a closed listener *)
            {| self := self w; net := net w; tasks := tasks w;
               out := out w ++ [String.append "Error accepting connection: "
                                  (network.OpError "accept"
                                     (network.laddr (network.addr (transport (self w))))
                                     network.ErrClosed)] |}
      | Fails e =>
          (* print the error; continue *)
          {| self := self w; net := net w; tasks := tasks w;
             out := out w ++ [String.append "Error accepting connection: " e] |}
      end
  | Some (THandle c) =>
      let '(ns, out') := network.handleConn c (net w) (out w) in
      {| self := self w; net := ns; tasks := <[i := TDone]> (tasks w); out := out' |}
  | Some TDone | None => w
  end.

(** The states the process can reach from a freshly created node. *)
Inductive reachable : World -> Prop :=
| reach_new src n : NewNode src = inl n -> reachable (boot n)
| reach_Start w : reachable w -> reachable (fst (Start w))
| reach_Stop w : reachable w -> reachable (fst (Stop w))
| reach_run i o w : reachable w -> reachable (run i o w).

End node.

(** ** Peer Registry

    The specification describes a registry of peers owned by the node. The
    source has the [peers] map and [NewPeer] only; the operations below are
    written from the specification's description of them. *)
Module registry.

Record Registry := {
  peers : gmap string peer.Peer;
  net : network.NetState
}.

(** Modelled from the spec: [register(id, connection) -> Peer], which the
    source does not define: it closes any prior connection held for the
    same id, overwrites the entry and returns the new peer. *)
Definition register (now : time.Time) (id : string) (c : nat) (r : Registry)
  : Registry * peer.Peer :=
  let ns := match peers r !! id with
            | Some old => fst (network.conn_Close (peer.conn old) (net r))
            | None => net r
            end in
  let p := {| peer.ID := id; peer.conn := c; peer.lastSeen := now |} in
  ({| peers := <[id := p]> (peers r); net := ns |}, p).

(** Modelled from the spec: [get(id) -> Peer|absent], which the source does
    not define. *)
Definition get (id : string) (r : Registry) : option peer.Peer :=
  peers r !! id.

(** A connection is closed when the operating system no longer holds it
    open. *)
Definition closed (c : nat) (r : Registry) : bool :=
  negb (bool_decide (network.conns (net r) !! c = Some true)).

End registry.

(** ** The envelope's decoder

    The specification pairs the encoding with a [decode] that the source
    does not have. It is written here for the layout [ToJSON] produces: one
    object with the six fields in order, strings with JSON escapes, the
    timestamp in RFC 3339 form and the payload in base64. *)
Module envelope.

Definition MalformedMessage : error := "MalformedMessage".

(** The input must start with [l]; the rest is returned. *)
Fixpoint expect (l s : list ascii) : option (list ascii) :=
  match l with
  | [] => Some s
  | c :: l' =>
      match s with
      | c' :: s' => if Ascii.eqb c c' then expect l' s' else None
      | [] => None
      end
  end.

Definition hexval (c : ascii) : option N :=
  let n := N_of_ascii c in
  if (48 <=? n)%N && (n <=? 57)%N then Some (n - 48)%N
  else if (97 <=? n)%N && (n <=? 102)%N then Some (n - 87)%N
  else if (65 <=? n)%N && (n <=? 70)%N then Some (n - 55)%N
  else None.

Definition hex4 (h1 h2 h3 h4 : ascii) : option N :=
  a ← hexval h1; b ← hexval h2; c ← hexval h3; d ← hexval h4;
  Some (4096 * a + 256 * b + 16 * c + d)%N.

(** The UTF-8 encoding of a code point of the basic plane. *)
Definition encodeRune (cp : N) : option (list ascii) :=
  if (cp <? 0x80)%N then Some [ascii_of_N cp]
  else if (cp <? 0x800)%N then
    Some [ascii_of_N (0xC0 + cp / 64); ascii_of_N (0x80 + cp mod 64)]
  else if (0xD800 <=? cp)%N && (cp <=? 0xDFFF)%N then None
  else
    Some [ascii_of_N (0xE0 + cp / 4096); ascii_of_N (0x80 + (cp / 64) mod 64);
          ascii_of_N (0x80 + cp mod 64)].

Definition simpleEscape (e : ascii) : option ascii :=
  if Ascii.eqb e json.quote then Some json.quote
  else if Ascii.eqb e json.backslash then Some json.backslash
  else if Ascii.eqb e "/" then Some "/"%char
  else if Ascii.eqb e "b" then Some "008"%char
  else if Ascii.eqb e "f" then Some "012"%char
  else if Ascii.eqb e "n" then Some "010"%char
  else if Ascii.eqb e "r" then Some "013"%char
  else if Ascii.eqb e "t" then Some "009"%char
  else None.

(** The characters of a JSON string up to its closing quote, escapes
    resolved, and what follows the quote. *)
Fixpoint unquoteBody (s : list ascii) : option (list ascii * list ascii) :=
  match s with
  | [] => None
  | c :: rest =>
      if Ascii.eqb c json.quote then Some ([], rest)
      else if Ascii.eqb c json.backslash then
        match rest with
        | [] => None
        | e :: rest1 =>
            if Ascii.eqb e "u" then
              match rest1 with
              | h1 :: h2 :: h3 :: h4 :: rest2 =>
                  cp ← hex4 h1 h2 h3 h4;
                  bs ← encodeRune cp;
                  '(t, r) ← unquoteBody rest2;
                  Some (bs ++ t, r)
              | _ => None
              end
            else
              d ← simpleEscape e;
              '(t, r) ← unquoteBody rest1;
              Some (d :: t, r)
        end
      else if (N_of_ascii c <? 0x20)%N then None
      else
        '(t, r) ← unquoteBody rest;
        Some (c :: t, r)
  end.

Definition parseString (s : list ascii) : option (string * list ascii) :=
  rest ← expect [json.quote] s;
  '(t, r) ← unquoteBody rest;
  Some (string_of_list_ascii t, r).


(** Exactly [n] decimal digits. *)
Fixpoint digits (n : nat) (acc : Z) (s : list ascii) : option (Z * list ascii) :=
  match n with
  | O => Some (acc, s)
  | S n' =>
      match s with
      | c :: rest =>
          if time.isDigit c
          then digits n' (10 * acc + (Z.of_N (N_of_ascii c) - 48)) rest
          else None
      | [] => None
      end
  end.

(** At most [n] decimal digits of a fraction, read as a number of units of
    [10 ^ -n]. *)
Fixpoint fraction (n : nat) (acc : Z) (s : list ascii) : Z * list ascii :=
  match n with
  | O => (acc, s)
  | S n' =>
      match s with
      | c :: rest =>
          if time.isDigit c
          then fraction n' (10 * acc + (Z.of_N (N_of_ascii c) - 48)) rest
          else ((acc * 10 ^ Z.of_nat n)%Z, s)
      | [] => ((acc * 10 ^ Z.of_nat n)%Z, s)
      end
  end.

Definition parseNanos (s : list ascii) : option (Z * list ascii) :=
  match s with
  | c :: d :: rest =>
      if Ascii.eqb c "." then
        if time.isDigit d then Some (fraction 9 0 (d :: rest)) else None
      else Some (0%Z, s)
  | _ => Some (0%Z, s)
  end.

Definition parseZone (s : list ascii) : option (Z * list ascii) :=
  match s with
  | c :: rest =>
      if Ascii.eqb c "Z" then Some (0%Z, rest)
      else if Ascii.eqb c "+" || Ascii.eqb c "-" then
        '(hh, r1) ← digits 2 0 rest;
        r2 ← expect [":"%char] r1;
        '(mm, r3) ← digits 2 0 r2;
        let secs := (hh * 3600 + mm * 60)%Z in
        Some ((if Ascii.eqb c "-" then - secs else secs)%Z, r3)
      else None
  | [] => None
  end.

(** The location a decoder can give to a timestamp: the text carries the
    offset only; so [UTC] for the offset zero, which is written [Z], and
    otherwise a fixed zone without a name. *)
Definition zoneOf (off : Z) : time.Location :=
  if (off =? 0)%Z then time.UTC else time.Zone "".

(** A quoted RFC 3339 timestamp. What it yields has no monotonic clock
    reading: the text carries none. *)
Definition parseTime (s : list ascii) : option (time.Time * list ascii) :=
  r ← expect [json.quote] s;
  '(Y, r) ← digits 4 0 r;
  r ← expect ["-"%char] r;
  '(M, r) ← digits 2 0 r;
  r ← expect ["-"%char] r;
  '(D, r) ← digits 2 0 r;
  r ← expect ["T"%char] r;
  '(h, r) ← digits 2 0 r;
  r ← expect [":"%char] r;
  '(mi, r) ← digits 2 0 r;
  r ← expect [":"%char] r;
  '(sec, r) ← digits 2 0 r;
  '(ns, r) ← parseNanos r;
  '(off, r) ← parseZone r;
  r ← expect [json.quote] r;
  Some ({| time.year := Y; time.month := M; time.day := D;
           time.hour := h; time.minute := mi; time.second := sec;
           time.nanosecond := ns; time.offset := off;
           time.location := zoneOf off;
           time.monotonic := None |}, r).

Fixpoint position (c : ascii) (l : list ascii) : option nat :=
  match l with
  | [] => None
  | c' :: l' => if Ascii.eqb c c' then Some O else n ← position c l'; Some (S n)
  end.

Definition decodeChar (c : ascii) : option base64.sextet :=
  n ← position c base64.encodeStd;
  let b i := Nat.testbit n i in
  Some (b 5%nat, b 4%nat, b 3%nat, b 2%nat, b 1%nat, b 0%nat).

(** Standard base64 with padding, four characters at a time. *)
Fixpoint base64Decode (s : list ascii) : option (list ascii) :=
  match s with
  | [] => Some []
  | k0 :: k1 :: k2 :: k3 :: rest =>
      '(a7, a6, a5, a4, a3, a2) ← decodeChar k0;
      '(a1, a0, b7, b6, b5, b4) ← decodeChar k1;
      if Ascii.eqb k3 "=" then
        match rest with
        | [] =>
            if Ascii.eqb k2 "=" then Some [Ascii a0 a1 a2 a3 a4 a5 a6 a7]
            else
              '(b3, b2, b1, b0, _, _) ← decodeChar k2;
              Some [Ascii a0 a1 a2 a3 a4 a5 a6 a7; Ascii b0 b1 b2 b3 b4 b5 b6 b7]
        | _ :: _ => None
        end
      else
        '(b3, b2, b1, b0, c7, c6) ← decodeChar k2;
        '(c5, c4, c3, c2, c1, c0) ← decodeChar k3;
        tl ← base64Decode rest;
        Some (Ascii a0 a1 a2 a3 a4 a5 a6 a7 :: Ascii b0 b1 b2 b3 b4 b5 b6 b7
              :: Ascii c0 c1 c2 c3 c4 c5 c6 c7 :: tl)
  | _ => None
  end.

(** The characters before the next quote, and what follows it. *)
Fixpoint untilQuote (s : list ascii) : option (list ascii * list ascii) :=
  match s with
  | [] => None
  | c :: rest =>
      if Ascii.eqb c json.quote then Some ([], rest)
      else '(t, r) ← untilQuote rest; Some (c :: t, r)
  end.

Definition parsePayload (s : list ascii) : option (option (list byte) * list ascii) :=
  match expect (json.lit "null") s with
  | Some r => Some (None, r)
  | None =>
      r ← expect [json.quote] s;
      '(txt, r) ← untilQuote r;
      b ← base64Decode txt;
      Some (Some (map byte_of_ascii b), r)
  end.

Definition parseMessage (s : list ascii) : option message.Message :=
  r ← expect (json.field true "id") s;
  '(id, r) ← parseString r;
  r ← expect (json.field false "type") r;
  '(ty, r) ← parseString r;
  r ← expect (json.field false "from") r;
  '(from, r) ← parseString r;
  r ← expect (json.field false "to") r;
  '(to, r) ← parseString r;
  r ← expect (json.field false "timestamp") r;
  '(ts, r) ← parseTime r;
  r ← expect (json.field false "payload") r;
  '(p, r) ← parsePayload r;
  match r with
  | ["}"%char] =>
      Some {| message.ID := id; message.Type_ := ty; message.From := from;
              message.To := to; message.Timestamp := ts; message.Payload := p |}
  | _ => None
  end.

(** Modelled from the spec: [decode(bytes) -> Message], failing with
    [MalformedMessage] on truncated or invalid input; the source has the
    encoder [ToJSON] only. *)
Definition decode (b : list byte) : message.Message + error :=
  match parseMessage (map ascii_of_byte b) with
  | Some m => inl m
  | None => inr MalformedMessage
  end.







End envelope.

(** ** Histories of the process, and the program (main.go) *)
Module lifecycle.

(** What happens to a running process, one event at a time: the main
    goroutine calls [Start] or [Stop], or the scheduler lets goroutine [i]
    take a step under the environment's answer [o]. *)
Inductive event :=
| CallStart
| CallStop
| Sched (i : nat) (o : node.outcome).

Definition step (w : node.World) (e : event) : node.World :=
  match e with
  | CallStart => fst (node.Start w)
  | CallStop => fst (node.Stop w)
  | Sched i o => node.run i o w
  end.

Definition exec (w : node.World) (l : list event) : node.World :=
  fold_left step l w.

Definition is_CallStart (e : event) : bool :=
  match e with CallStart => true | _ => false end.

(** The listener the transport holds is open. *)
Definition listening (w : node.World) : bool :=
  match network.listener (node.transport (node.self w)) with
  | Some h => bool_decide (network.listeners (node.net w) !! h = Some true)
  | None => false
  end.


(** A world without a pending [Listen] and without an open listener, with
    [n] connections accepted so far. *)
Definition shut (n : nat) (w : node.World) : Prop :=
  Forall (fun t => t <> node.TListen) (node.tasks w) /\
  listening w = false /\
  length (network.conns (node.net w)) = n.

End lifecycle.

Module cmd.

(** [fmt.Println] and [fmt.Printf] of the main goroutine: one entry of
    standard output per call, without its final newline. *)
Definition println (line : string) (w : node.World) : node.World :=
  {| node.self := node.self w; node.net := node.net w;
     node.tasks := node.tasks w; node.out := node.out w ++ [line] |}.

(** The steps the goroutines take between two statements of [main]. *)
Definition runs (s : list (nat * node.outcome)) (w : node.World) : node.World :=
  fold_left (fun w io => node.run (fst io) (snd io) w) s w.


(** [n.Start()] as the program runs it: the goroutines may take the steps
    [s] between the [go] statement and the line that [Start] prints. *)
Definition Start (s : list (nat * node.outcome)) (w : node.World)
  : node.World * option error :=
  let w := {| node.self := node.self w; node.net := node.net w;
              node.tasks := node.tasks w ++ [node.TListen];
              node.out := node.out w |} in
  let w := runs s w in
  (println "Node transport started." w, None).




End cmd.

(** * The body-age estimator (bodyAgeCalculator.js) *)

(** ** JavaScript numbers and values

    A Number is an IEEE 754 binary64 value; the arithmetic is the Standard
    Library's executable specification [SpecFloat] at precision 53. *)
Module js.

Definition prec : Z := 53.
Definition emax : Z := 1024.

Definition Number := spec_float.

Definition add : Number -> Number -> Number := SFadd prec emax.
Definition sub : Number -> Number -> Number := SFsub prec emax.
Definition mul : Number -> Number -> Number := SFmul prec emax.
Definition div : Number -> Number -> Number := SFdiv prec emax.

Definition NaN : Number := S754_nan.
Definition zero : Number := S754_zero false.
Definition Infinity : Number := S754_infinity false.

Definition is_nan (x : Number) : bool :=
  match x with S754_nan => true | _ => false end.

Definition is_zero (x : Number) : bool :=
  match x with S754_zero _ => true | _ => false end.

Definition is_finite (x : Number) : bool :=
  match x with S754_zero _ | S754_finite _ _ _ => true | _ => false end.

(** The numeric literals of the source, as the nearest binary64 values. *)
Definition n1_20 : Number := S754_finite false 5404319552844595 (-52). (* 1.20 *)
Definition n0_23 : Number := S754_finite false 8286623314361713 (-55). (* 0.23 *)
Definition n16_2 : Number := S754_finite false 4559894622712627 (-48). (* 16.2 *)
Definition n5_4 : Number := S754_finite false 6079859496950170 (-50).  (* 5.4 *)
Definition n18 : Number := S754_finite false 5066549580791808 (-48).   (* 18 *)
Definition n0_5 : Number := S754_finite false 4503599627370496 (-53).  (* 0.5 *)
Definition n100 : Number := S754_finite false 7036874417766400 (-46).  (* 100 *)
Definition n10 : Number := S754_finite false 5629499534213120 (-49).   (* 10 *)
Definition n1 : Number := S754_finite false 4503599627370496 (-52).    (* 1 *)

(** The primitive values a caller can pass. *)
Inductive Value :=
| Undefined
| Null
| Boolean (b : bool)
| Num (x : Number)
| Str (s : string).

(** How a call ends: with a value, or by throwing a TypeError. *)
Inductive Completion :=
| Normal (v : Value)
| ThrowTypeError.

(** [ToBoolean]: what [!v] negates. *)
Definition ToBoolean (v : Value) : bool :=
  match v with
  | Undefined | Null => false
  | Boolean b => b
  | Num x => negb (is_zero x || is_nan x)
  | Str s => negb (String.eqb s "")
  end.

(** [Math.max]: NaN if any argument is NaN; [+0] counts as larger than
    [-0]. *)
Definition max_step (highest number : Number) : Number :=
  match highest, number with
  | S754_zero true, S754_zero false => number
  | _, _ => if SFltb highest number then number else highest
  end.

Definition Math_max (args : list Number) : Number :=
  if existsb is_nan args then NaN
  else fold_left max_step args (S754_infinity true).

(** [Math.round]: a non-finite or integral number is returned as it is;
    otherwise the nearest integer, the one towards +Infinity on a tie, which
    is [floor (x + 1/2)] computed exactly; a zero result keeps the sign of
    the argument. *)
Definition Math_round (x : Number) : Number :=
  match x with
  | S754_finite s m e =>
      if (0 <=? e)%Z then x
      else
        let v := cond_Zopp s (Zpos m) in
        let k := ((2 * v + 2 ^ (- e)) / 2 ^ (1 - e))%Z in
        if (k =? 0)%Z then S754_zero s
        else binary_normalize prec emax k 0 false
  | _ => x
  end.

Section Builtins.

(** Built-ins of the language that the function reaches and whose tables
    are not part of this repository: [String.prototype.toLowerCase], and
    the conversions between strings and numbers that apply when an
    argument is a string. *)
Variable toLowerCase : string -> string.
Variable StringToNumber : string -> Number.
Variable NumberToString : Number -> string.

Definition ToNumber (v : Value) : Number :=
  match v with
  | Undefined => NaN
  | Null => zero
  | Boolean b => if b then n1 else zero
  | Num x => x
  | Str s => StringToNumber s
  end.

(** [v <= n] for a Number [n]: false when [n < ToNumber v] or when the
    comparison is undefined (NaN), true otherwise. *)
Definition le_Number (v : Value) (n : Number) : bool :=
  match SFcompare n (ToNumber v) with
  | Some Lt | None => false
  | Some _ => true
  end.

(** [v + n] for a Number [n]: concatenation when [v] is a string. *)
Definition plus_Number (v : Value) (n : Number) : Value :=
  match v with
  | Str s => Str (String.append s (NumberToString n))
  | _ => Num (add (ToNumber v) n)
  end.

(** [calculateBodyAge] *)
Definition calculateBodyAge (age gender height weight : Value) : Completion :=
  (* 1. Validate inputs *)
  if negb (ToBoolean age) || negb (ToBoolean gender)
     || negb (ToBoolean height) || negb (ToBoolean weight)
     || le_Number height zero || le_Number weight zero
  then Normal Null
  else
    (* 2. BMI *)
    let heightInMeters := div (ToNumber height) n100 in
    let bmi := div (ToNumber weight) (mul heightInMeters heightInMeters) in
    (* 3. Body fat; [gender.toLowerCase] exists on strings only *)
    match gender with
    | Str g =>
        let bodyFat :=
          if String.eqb (toLowerCase g) "male"
          then sub (add (mul n1_20 bmi) (mul n0_23 (ToNumber age))) n16_2
          else sub (add (mul n1_20 bmi) (mul n0_23 (ToNumber age))) n5_4 in
        (* 4. Body age *)
        let bodyAgeRaw := plus_Number age (mul (sub bodyFat n18) n0_5) in
        (* 5. Clamp at zero, round to one decimal place *)
        let finalBodyAge := Math_max [zero; ToNumber bodyAgeRaw] in
        Normal (Num (div (Math_round (mul finalBodyAge n10)) n10))
    | _ => ThrowTypeError
    end.

End Builtins.

(** The formula of the estimator on numbers, step by step: BMI from
    centimetres and kilograms, body fat by gender, the raw body age, and
    the clamped value rounded to one decimal place. *)
Definition bmi_of (height weight : Number) : Number :=
  div weight (mul (div height n100) (div height n100)).

Definition male_bodyFat (bmi age : Number) : Number :=
  sub (add (mul n1_20 bmi) (mul n0_23 age)) n16_2.

Definition female_bodyFat (bmi age : Number) : Number :=
  sub (add (mul n1_20 bmi) (mul n0_23 age)) n5_4.

Definition bodyAgeRaw_of (age bodyFat : Number) : Number :=
  add age (mul (sub bodyFat n18) n0_5).

Definition clamp0 (x : Number) : Number := Math_max [zero; x].

Definition round1 (x : Number) : Number := div (Math_round (mul x n10)) n10.

(** [x] is NaN or carries the sign bit [s]. *)
Definition sign_is (s : bool) (x : Number) : Prop :=
  match x with
  | S754_zero s' | S754_infinity s' | S754_finite s' _ _ => s' = s
  | S754_nan => True
  end.

(** [x] is a number (not NaN) with a clear sign bit: [+0], a positive
    finite number or [+Infinity]. *)
Definition positive_or_zero (x : Number) : bool :=
  match x with
  | S754_zero false | S754_infinity false | S754_finite false _ _ => true
  | _ => false
  end.

(** ASCII lower-casing, the part of [toLowerCase] that decides a comparison
    with "male". *)
Definition ascii_toLowerCase (c : ascii) : ascii :=
  let n := N_of_ascii c in
  if (65 <=? n)%N && (n <=? 90)%N then ascii_of_N (n + 32) else c.

Fixpoint toLowerCase_ascii (s : string) : string :=
  match s with
  | EmptyString => EmptyString
  | String c rest => String (ascii_toLowerCase c) (toLowerCase_ascii rest)
  end.

End js.

(** * The server: token verification, the middleware and the profile route

    firebase-config.js, auth-middleware.js and the route of auth.js that
    calls the estimator. What the code logs to the console is left out. *)
Module server.

(** [String.prototype.split] with a separator of one character. *)
Fixpoint split (sep : ascii) (s : string) : list string :=
  match s with
  | EmptyString => [EmptyString]
  | String c rest =>
      if Ascii.eqb c sep then EmptyString :: split sep rest
      else
        match split sep rest with
        | piece :: pieces => String c piece :: pieces
        | [] => [String c EmptyString]
        end
  end.

(** Whether the character [c] occurs in [s]. *)
Fixpoint occurs (c : ascii) (s : string) : bool :=
  match s with
  | EmptyString => false
  | String a rest => Ascii.eqb a c || occurs c rest
  end.

(** The claims of a decoded ID token that the code reads; a claim the
    token does not carry is [undefined]. *)
Record DecodedToken := {
  uid : string;
  email : js.Value;
  name : js.Value;
  picture : js.Value;
  email_verified : js.Value
}.

(** The document that the profile route writes. *)
Record Profile := {
  height : js.Value;
  weight : js.Value;
  age : js.Value;
  gender : js.Value;
  bodyAge : js.Value;
  profileLastUpdated : string
}.

(** What surrounds the code: whether the Admin SDK was initialised
    ([firebaseApp] is not null), the SDK's own [verifyIdToken] (the decoded
    token, or nothing when it rejects), the answer of Firestore to
    [doc(uid).set(data, { merge: true })] (nothing, or the message of the
    error), the clock
    ([new Date().toISOString()]), two variables of the process environment
    (absent or a string), the built-ins that [calculateBodyAge] reaches,
    and the message of the engine's TypeError. *)
Record Env := {
  firebaseApp : bool;
  admin_verifyIdToken : string -> option DecodedToken;
  firestore_set : string -> Profile -> option string;
  now_ISO : string;
  ADMIN_EMAILS : option string;
  TO_EMAIL : option string;
  toLowerCase : string -> string;
  StringToNumber : string -> js.Number;
  NumberToString : js.Number -> string;
  TypeError_message : string
}.

(** ** firebase-config.js *)

(** [verifyIdToken]: the decoded token, or the message of the Error
    thrown. *)
Definition verifyIdToken (env : Env) (idToken : string) : DecodedToken + string :=
  if negb (firebaseApp env) then inr "Firebase Admin SDK not initialized"
  else
    match admin_verifyIdToken env idToken with
    | Some decodedToken =>
        inl {| uid := uid decodedToken;
               email := email decodedToken;
               name := name decodedToken;
               picture := picture decodedToken;
               email_verified := email_verified decodedToken |}
    | None => inr "Invalid or expired token"
    end.

(** The calls that reach Firestore: [userRef.set(data, { merge: true })]
    on the document [users/<uid>]. *)
Inductive effect :=
| Set_merge (uid : string) (data : Profile).

(** [updateUserProfile]: the calls made, and the message of the Error
    thrown, if any. *)
Definition updateUserProfile (env : Env) (uid : string) (data : Profile)
  : list effect * option string :=
  if negb (firebaseApp env) then ([], Some "Firebase Admin SDK not initialized")
  else ([Set_merge uid data], firestore_set env uid data).

(** ** auth-middleware.js *)

(** What [res.status(..).json(..)] sends. *)
Inductive Payload :=
| NoPayload
| ProfilePayload (profile : Profile).

Record Response := {
  status : Z;
  success : bool;
  message : string;
  error_ : option string;
  payload : Payload
}.

(** A middleware ends the request with a response or calls [next()],
    with [req.user] set. *)
Inductive Outcome :=
| Respond (r : Response)
| Next (user : DecodedToken).

(** [authHeader && authHeader.split(' ')[1]]: [None] is [undefined]. *)
Definition token_of (authHeader : option string) : option string :=
  match authHeader with
  | None => None
  | Some h => if String.eqb h "" then Some "" else split " " h !! 1%nat
  end.

(** [authenticateToken] *)
Definition authenticateToken (env : Env) (authorization : option string) : Outcome :=
  let token := token_of authorization in
  match token with
  | None | Some EmptyString =>
      Respond {| status := 401; success := false;
                 message := "Access token required";
                 error_ := Some "MISSING_TOKEN"; payload := NoPayload |}
  | Some token =>
      match verifyIdToken env token with
      | inl decodedToken =>
          Next {| uid := uid decodedToken;
                  email := email decodedToken;
                  name := name decodedToken;
                  picture := picture decodedToken;
                  email_verified := email_verified decodedToken |}
      | inr _ =>
          Respond {| status := 401; success := false;
                     message := "Invalid or expired token";
                     error_ := Some "INVALID_TOKEN"; payload := NoPayload |}
      end
  end.

(** The answer to a request without a token. *)
Definition missing_token : Response :=
  {| status := 401; success := false;
     message := "Access token required";
     error_ := Some "MISSING_TOKEN"; payload := NoPayload |}.

(** [===] on primitive values. *)
Definition strict_equal (a b : js.Value) : bool :=
  match a, b with
  | js.Undefined, js.Undefined => true
  | js.Null, js.Null => true
  | js.Boolean x, js.Boolean y => Bool.eqb x y
  | js.Num x, js.Num y =>
      match SFcompare x y with Some Eq => true | _ => false end
  | js.Str x, js.Str y => String.eqb x y
  | _, _ => false
  end.

(** A variable of [process.env] as a value. *)
Definition env_value (v : option string) : js.Value :=
  match v with
  | Some s => js.Str s
  | None => js.Undefined
  end.

(** [Array.prototype.includes] on an array of strings. *)
Definition includes (l : list string) (v : js.Value) : bool :=
  match v with
  | js.Str s => existsb (String.eqb s) l
  | _ => false
  end.

(** What [requireAdmin] does when it does not respond: it calls
    [next()]. [req.user] is absent when no middleware has set it. *)
Inductive Admission :=
| Refuse (r : Response)
| Grant.

(** [requireAdmin] *)
Definition requireAdmin (env : Env) (user : option DecodedToken) : Admission :=
  match user with
  | None =>
      Refuse {| status := 401; success := false;
                message := "Authentication required";
                error_ := Some "NOT_AUTHENTICATED"; payload := NoPayload |}
  | Some user =>
      let adminEmails :=
        match ADMIN_EMAILS env with
        | Some s => split "," s
        | None => []
        end in
      let isAdmin :=
        includes adminEmails (email user)
        || strict_equal (email user) (env_value (TO_EMAIL env)) in
      if negb isAdmin then
        Refuse {| status := 403; success := false;
                  message := "Admin privileges required";
                  error_ := Some "INSUFFICIENT_PERMISSIONS"; payload := NoPayload |}
      else Grant
  end.

(** ** The route [POST /update-profile] (auth.js) *)

(** The four fields the handler reads from the parsed JSON body; an
    absent field is [undefined]. Fields that are arrays or objects are
    not covered. *)
Record Body := {
  body_height : js.Value;
  body_weight : js.Value;
  body_age : js.Value;
  body_gender : js.Value
}.

Record Request := {
  authorization : option string;
  body : Body
}.

(** The handler, after [authenticateToken] has set [req.user]: the
    response, and the calls made to Firestore. *)
Definition update_profile_handler (env : Env) (user : DecodedToken) (b : Body)
  : Response * list effect :=
  let failed (msg : string) :=
    {| status := 500; success := false;
       message := "Failed to update profile.";
       error_ := Some msg; payload := NoPayload |} in
  if negb (js.ToBoolean (body_height b)) || negb (js.ToBoolean (body_weight b))
     || negb (js.ToBoolean (body_age b)) || negb (js.ToBoolean (body_gender b))
  then
    ({| status := 400; success := false;
        message := "Height, weight, age, and gender are required.";
        error_ := None; payload := NoPayload |}, [])
  else
    match js.calculateBodyAge (toLowerCase env) (StringToNumber env) (NumberToString env)
            (body_age b) (body_gender b) (body_height b) (body_weight b) with
    | js.ThrowTypeError => (failed (TypeError_message env), [])
    | js.Normal bodyAge =>
        let userProfileData :=
          {| height := body_height b; weight := body_weight b;
             age := body_age b; gender := body_gender b;
             bodyAge := bodyAge;
             profileLastUpdated := now_ISO env |} in
        match updateUserProfile env (uid user) userProfileData with
        | (calls, Some msg) => (failed msg, calls)
        | (calls, None) =>
            ({| status := 200; success := true;
                message := "Profile updated successfully";
                error_ := None; payload := ProfilePayload userProfileData |}, calls)
        end
    end.

(** The route: the middleware, then the handler. *)
Definition update_profile (env : Env) (req : Request) : Response * list effect :=
  match authenticateToken env (authorization req) with
  | Respond r => (r, [])
  | Next user => update_profile_handler env user (body req)
  end.

End server.

(** * Reference ranges of the vital signs (constants.ts) *)
Module vitals.

(** An integer literal as a Number. *)
Definition int (z : Z) : js.Number := binary_normalize js.prec js.emax z 0 false.

Record Range := { min : js.Number; max : js.Number }.

Record BloodPressure := { systolic : Range; diastolic : Range }.

(** [a >= b] and [a <= b] on Numbers: false when one of them is NaN. *)
Definition ge (a b : js.Number) : bool := SFleb b a.
Definition le (a b : js.Number) : bool := SFleb a b.

(** The ranges returned for ages outside the two brackets. *)
Definition default_ranges : BloodPressure :=
  {| systolic := {| min := int 110; max := int 125 |};
     diastolic := {| min := int 70; max := int 85 |} |}.

(** [getBloodPressureRanges] *)
Definition getBloodPressureRanges (age : js.Number) : BloodPressure :=
  if ge age (int 10) && le age (int 29) then
    {| systolic := {| min := int 139; max := int 155 |};
       diastolic := {| min := int 78; max := int 93 |} |}
  else if ge age (int 30) then
    {| systolic := {| min := int 120; max := int 142 |};
       diastolic := {| min := int 72; max := int 88 |} |}
  else default_ranges.

End vitals.

(** ** Concrete inputs used by the examples below *)
Module sample.

(** A reading of [time.Now()]: 2024-05-17T09:30:15.123456789+05:30, with a
    monotonic clock reading. *)
Definition now0 : time.Time :=
  {| time.year := 2024; time.month := 5; time.day := 17;
     time.hour := 9; time.minute := 30; time.second := 15;
     time.nanosecond := 123456789;
     time.offset := 19800;
     time.location := time.Local;
     time.monotonic := Some 5000%Z |}.

(** A later reading of the same wall clock: only the monotonic clock has
    advanced (the wall clock was set back in between). *)
Definition now1 : time.Time :=
  {| time.year := 2024; time.month := 5; time.day := 17;
     time.hour := 9; time.minute := 30; time.second := 15;
     time.nanosecond := 123456789;
     time.offset := 19800;
     time.location := time.Local;
     time.monotonic := Some 9000%Z |}.

(** Two messages of one node, and a message whose timestamp was read from
    the wire and so has no monotonic reading. *)
Definition hello0 : message.Message :=
  fst (message.NewTextMessage now0 "3af1007c" "deadbeef" "hello").



(** JSON text shown with apostrophes for its quotes. *)
Definition printable (l : list ascii) : string :=
  string_of_list_ascii
    (map (fun c => if Ascii.eqb c json.quote then "'"%char else c) l).

Definition printed (r : list byte + error) : string :=
  match r with
  | inl b => printable (map ascii_of_byte b)
  | inr err => err
  end.

(** A timestamp of the year 10000, and strings that are not valid UTF-8:
    a lone continuation byte and a lone 0xFF. *)
Definition year10000 : time.Time :=
  {| time.year := 10000; time.month := 1; time.day := 1;
     time.hour := 0; time.minute := 0; time.second := 0;
     time.nanosecond := 0; time.offset := 0;
     time.location := time.UTC; time.monotonic := None |}.

Definition lone80 : string := String (ascii_of_N 0x80) EmptyString.
Definition loneFF : string := String (ascii_of_N 0xFF) EmptyString.

(** Twenty bytes of entropy. *)
Definition entropy0 : rand.Source :=
  [x3a; xf1; x00; x7c; xde; xad; xbe; xef; x10; x99;
   xab; x42; x05; xff; x80; x6e; x01; x02; x03; x04].

Definition node0 : node.Node :=
  {| node.ID := "3af1007cdeadbeef1099ab4205ff806e";
     node.transport := {| network.listener := None; network.addr := ":8080" |};
     node.peers := ∅ |}.

(** The process right after [NewNode], and after [Start] once the
    [Listen] goroutine has bound its socket. *)
Definition world0 : node.World := node.boot node0.

Definition listening0 : node.World :=
  node.run 0 node.Succeeds (fst (node.Start world0)).

(** A whole run: start, bind, accept a connection, handle it, stop. *)
Definition stopped0 : node.World :=
  fst (node.Stop (node.run 1 node.Succeeds (node.run 0 node.Succeeds listening0))).

(** Arguments of [calculateBodyAge]: the numbers 30, 170 and 65, and
    stand-ins for the string conversions, which number arguments never
    reach. *)
Definition thirty : js.Number := S754_finite false 8444249301319680 (-48).
Definition cm170 : js.Number := S754_finite false 5981343255101440 (-45).
Definition kg65 : js.Number := S754_finite false 4573968371548160 (-46).
Definition StringToNumber0 (s : string) : js.Number := js.NaN.
Definition NumberToString0 (x : js.Number) : string := "".

Definition calc : js.Value -> js.Value -> js.Value -> js.Value -> js.Completion :=
  js.calculateBodyAge js.toLowerCase_ascii StringToNumber0 NumberToString0.

End sample.

(** ** A server and its users, for the examples below *)
Module fixture.

(** A user with an e-mail address, and one signed in without any (the
    token has no [email] claim). *)
Definition alice : server.DecodedToken :=
  {| server.uid := "u-alice";
     server.email := js.Str "alice@example.org";
     server.name := js.Str "Alice";
     server.picture := js.Undefined;
     server.email_verified := js.Boolean true |}.

Definition guest : server.DecodedToken :=
  {| server.uid := "u-guest";
     server.email := js.Undefined;
     server.name := js.Undefined;
     server.picture := js.Undefined;
     server.email_verified := js.Undefined |}.

(** A server whose SDK accepts two tokens, whose store accepts every
    write, and with [ADMIN_EMAILS] set and [TO_EMAIL] not set. *)
Definition env0 : server.Env :=
  {| server.firebaseApp := true;
     server.admin_verifyIdToken :=
       (fun t => if String.eqb t "token-of-alice" then Some alice
                 else if String.eqb t "token-of-guest" then Some guest
                 else None);
     server.firestore_set := (fun _ _ => None);
     server.now_ISO := "2024-05-17T04:00:15.123Z";
     server.ADMIN_EMAILS := Some "root@example.org,ops@example.org";
     server.TO_EMAIL := None;
     server.toLowerCase := js.toLowerCase_ascii;
     server.StringToNumber := sample.StringToNumber0;
     server.NumberToString := sample.NumberToString0;
     server.TypeError_message := "gender.toLowerCase is not a function" |}.

(** The number -170: a height with the wrong sign. *)
Definition minus170 : js.Number := S754_finite true 5981343255101440 (-45).

Definition request (header : string) (h w a g : js.Value) : server.Request :=
  {| server.authorization := Some header;
     server.body := {| server.body_height := h; server.body_weight := w;
                       server.body_age := a; server.body_gender := g |} |}.

End fixture.

(** * Known answers

    The library models evaluated on inputs whose results are known. *)

Example hex_deadbeef : hex.EncodeToString [xde; xad; xbe; xef] = "deadbeef".
Proof. reflexivity. Qed.

(** The test vectors of RFC 4648. *)
Example base64_vectors :
  map (fun s => string_of_list_ascii (base64.Encode (list_ascii_of_string s)))
    [""; "f"; "fo"; "foo"; "foob"; "fooba"; "foobar"]
  = [""; "Zg=="; "Zm8="; "Zm9v"; "Zm9vYg=="; "Zm9vYmE="; "Zm9vYmFy"].
Proof. reflexivity. Qed.

Example appendString_escapes :
  sample.printable (json.appendString "a<b>&c\d	e")
  = "'a\u003cb\u003e\u0026c\\d\te'".
Proof. vm_compute. reflexivity. Qed.

(** An invalid byte is written as the replacement character, whatever the
    byte was. *)
Example appendString_invalid :
  sample.printable (json.appendString sample.lone80) = "'\ufffd'" /\
  json.appendString sample.loneFF = json.appendString sample.lone80 /\
  utf8.ValidString sample.lone80 = false.
Proof. repeat split; vm_compute; reflexivity. Qed.

Example ToJSON_hello0 :
  sample.printed (message.ToJSON sample.hello0)
  = "{'id':'temp-id','type':'text','from':'3af1007c','to':'deadbeef','timestamp':'2024-05-17T09:30:15.123456789+05:30','payload':'aGVsbG8='}".
Proof. vm_compute. reflexivity. Qed.

Example ToJSON_year10000 :
  message.ToJSON (fst (message.NewTextMessage sample.year10000 "a" "b" ""))
  = inr "json: error calling MarshalJSON for type time.Time: Time.MarshalJSON: year outside of range [0,9999]".
Proof. vm_compute. reflexivity. Qed.

Example decode_truncated :
  envelope.decode (bytes_of_string "{") = inr envelope.MalformedMessage.
Proof. reflexivity. Qed.

(** A run of the process: start, bind, accept one connection, handle it,
    stop; and what a further turn of the accept loop prints. *)
Example run_output :
  node.out sample.stopped0
  = ["Node transport started."; "Transport listening on :8080";
     "Accepted connection from peer"] /\
  node.out (node.run 0 node.Succeeds sample.stopped0)
  = node.out sample.stopped0
    ++ ["Error accepting connection: accept tcp [::]:8080: use of closed network connection"].
Proof. split; reflexivity. Qed.

(** The numeric literals of the estimator are the binary64 values that the
    decimal literals denote. *)
#[local] Set Warnings "-inexact-float".

Example literals_are_nearest :
  map Prim2SF [1.20; 0.23; 16.2; 5.4; 18; 0.5; 100; 10; 1; 30; 170; 65]%float
  = [js.n1_20; js.n0_23; js.n16_2; js.n5_4; js.n18; js.n0_5; js.n100; js.n10;
     js.n1; sample.thirty; sample.cm170; sample.kg65].
Proof. vm_compute. reflexivity. Qed.

(** The estimator on a 30-year-old of 170 cm and 65 kg: 29.8 as a man,
    35.2 as a woman; a gender that is not a string makes [toLowerCase]
    throw. *)
Example calculateBodyAge_values :
  sample.calc (js.Num sample.thirty) (js.Str "male") (js.Num sample.cm170) (js.Num sample.kg65)
  = js.Normal (js.Num (S754_finite false 8387954305977549 (-48))) /\
  sample.calc (js.Num sample.thirty) (js.Str "female") (js.Num sample.cm170) (js.Num sample.kg65)
  = js.Normal (js.Num (S754_finite false 4953959590107546 (-47))) /\
  sample.calc (js.Num sample.thirty) (js.Boolean true) (js.Num sample.cm170) (js.Num sample.kg65)
  = js.ThrowTypeError.
Proof. repeat split; vm_compute; reflexivity. Qed.

Example Math_round_ties :
  js.Math_round (S754_finite false 5 (-1)) = S754_finite false 6755399441055744 (-51) /\
  js.Math_round (S754_finite true 5 (-1)) = S754_finite true 4503599627370496 (-51) /\
  js.Math_round (S754_finite true 1 (-1)) = S754_zero true.
Proof. repeat split. Qed.

(** * Properties of the mesh messenger *)

(** ** message.go *)

(** C2 (as stated, refuted): a payload longer than a maximum of four bytes is
    accepted: [NewTextMessage] returns the message and a nil error, and
    [ToJSON] produces its encoding. *)
Lemma oversize_payload_is_accepted :
  (4 < String.length "hello")%nat /\
  message.NewTextMessage sample.now0 "3af1007c" "deadbeef" "hello"
  = (sample.hello0, None) /\
  message.Payload sample.hello0 = Some (bytes_of_string "hello") /\
  exists b, message.ToJSON sample.hello0 = inl b.
Proof.
  split; [ cbn; lia | ]. split; [ reflexivity | ]. split; [ reflexivity | ].
  eexists. vm_compute. reflexivity.
Qed.

(** C2 (amended): [NewTextMessage] never fails. For every payload, whatever
    its size, it returns a nil error and a text message that carries the
    sender, the recipient and exactly the bytes of the content; and [ToJSON]
    encodes that message exactly when the timestamp can be marshalled,
    whatever the payload. *)
Theorem NewTextMessage_never_fails (now : time.Time) (from to content : string) :
  snd (message.NewTextMessage now from to content) = None /\
  message.Payload (fst (message.NewTextMessage now from to content))
  = Some (bytes_of_string content) /\
  message.Type_ (fst (message.NewTextMessage now from to content)) = message.TextMessage /\
  message.From (fst (message.NewTextMessage now from to content)) = from /\
  message.To (fst (message.NewTextMessage now from to content)) = to /\
  ((exists b, message.ToJSON (fst (message.NewTextMessage now from to content)) = inl b)
   <-> (exists ts, time.MarshalJSON now = inl ts)).
Proof.
  repeat split.
  - unfold message.ToJSON. cbn [message.Timestamp message.NewTextMessage fst].
    destruct (time.MarshalJSON now) as [ts|err]; [eauto|].
    intros [b Hb]. discriminate Hb.
  - intros [ts Hts]. unfold message.ToJSON.
    cbn [message.Timestamp message.NewTextMessage fst]. rewrite Hts. eauto.
Qed.

(** C3 (the code at the failing input): any two messages, whatever their
    sender, recipient, content and creation time, get the same id, the
    placeholder "temp-id". *)
Theorem NewTextMessage_ids_collide
  (now1 now2 : time.Time) (from1 to1 content1 from2 to2 content2 : string) :
  message.ID (fst (message.NewTextMessage now1 from1 to1 content1)) = "temp-id" /\
  message.ID (fst (message.NewTextMessage now2 from2 to2 content2))
  = message.ID (fst (message.NewTextMessage now1 from1 to1 content1)).
Proof. split; reflexivity. Qed.

(** ** encoding/hex *)

Lemma EncodeToString_length (src : list byte) :
  String.length (hex.EncodeToString src) = (2 * length src)%nat.
Proof. induction src as [|v rest IH]; cbn [hex.EncodeToString String.length length]; lia. Qed.

Lemma digits_are_hex (v : byte) :
  hex.is_hex_digit (hex.digit (N.shiftr (Byte.to_N v) 4)) = true /\
  hex.is_hex_digit (hex.digit (N.land (Byte.to_N v) 15)) = true.
Proof. destruct v; split; vm_compute; reflexivity. Qed.

Lemma EncodeToString_all_hex (src : list byte) :
  hex.all_hex (hex.EncodeToString src) = true.
Proof.
  induction src as [|v rest IH]; [reflexivity|].
  cbn [hex.EncodeToString hex.all_hex].
  destruct (digits_are_hex v) as [-> ->]. exact IH.
Qed.

Lemma digits_decode (v : byte) :
  exists x y,
    hex.fromHexChar (hex.digit (N.shiftr (Byte.to_N v) 4)) = Some x /\
    hex.fromHexChar (hex.digit (N.land (Byte.to_N v) 15)) = Some y /\
    Byte.of_N (N.lor (N.shiftl x 4) y) = Some v.
Proof. destruct v; do 2 eexists; repeat split; vm_compute; reflexivity. Qed.

Lemma DecodeString_EncodeToString (src : list byte) :
  hex.DecodeString (hex.EncodeToString src) = Some src.
Proof.
  induction src as [|v rest IH]; [reflexivity|].
  cbn [hex.EncodeToString hex.DecodeString].
  destruct (digits_decode v) as (x & y & -> & -> & Hv).
  rewrite IH, Hv. reflexivity.
Qed.

(** ** The Node file *)

(** C4: a node id is the hex encoding of the sixteen bytes (128 bits) that
    [rand.Read] delivered: thirty-two characters, all of them lower-case
    hexadecimal digits, from which the sixteen bytes can be read back. *)
Theorem NewNode_ID_is_hex_of_128_bits (src : rand.Source) (n : node.Node) :
  node.NewNode src = inl n ->
  exists rawID rest,
    rand.Read src 16 = inl (rawID, rest) /\
    length rawID = 16%nat /\
    node.ID n = hex.EncodeToString rawID /\
    String.length (node.ID n) = 32%nat /\
    hex.all_hex (node.ID n) = true /\
    hex.DecodeString (node.ID n) = Some rawID.
Proof.
  unfold node.NewNode, rand.Read.
  destruct (16 <=? length src)%nat eqn:Hlen; [|discriminate].
  cbn. intros [= <-]. cbn [node.ID].
  apply Nat.leb_le in Hlen.
  assert (Hraw : length (firstn 16 src) = 16%nat) by (rewrite length_firstn; lia).
  exists (firstn 16 src), (skipn 16 src).
  repeat split.
  - exact Hraw.
  - rewrite EncodeToString_length, Hraw. reflexivity.
  - apply EncodeToString_all_hex.
  - apply DecodeString_EncodeToString.
Qed.

Lemma NewNode_ID_is_hex_of_128_bits_witness :
  node.NewNode sample.entropy0 = inl sample.node0 /\
  exists rawID rest,
    rand.Read sample.entropy0 16 = inl (rawID, rest) /\
    length rawID = 16%nat /\
    node.ID sample.node0 = hex.EncodeToString rawID /\
    String.length (node.ID sample.node0) = 32%nat /\
    hex.all_hex (node.ID sample.node0) = true /\
    hex.DecodeString (node.ID sample.node0) = Some rawID.
Proof.
  split; [ reflexivity | ].
  apply (NewNode_ID_is_hex_of_128_bits sample.entropy0 sample.node0).
  reflexivity.
Defined.

(** C5 (as stated, refuted): on a node that has already been started, a
    second [Start] returns nil, as the first did. *)
Lemma second_Start_returns_nil :
  snd (node.Start sample.world0) = None /\
  snd (node.Start (fst (node.Start sample.world0))) = None.
Proof. split; reflexivity. Qed.

(** C5 (amended): [Start] never fails and keeps no record of having run.
    Every call, the first like any later one, returns nil, launches one more
    [Listen] goroutine, prints one line and leaves the node and the sockets
    as they were. *)
Theorem Start_never_fails (w : node.World) :
  snd (node.Start w) = None /\
  node.tasks (fst (node.Start w)) = node.tasks w ++ [node.TListen] /\
  node.out (fst (node.Start w)) = node.out w ++ ["Node transport started."] /\
  node.self (fst (node.Start w)) = node.self w /\
  node.net (fst (node.Start w)) = node.net w.
Proof. repeat split. Qed.

(** ** Stopping *)

Lemma listener_Close_twice (a : string) (h : nat) (ns : network.NetState) :
  network.listener_Close a h (fst (network.listener_Close a h ns))
  = (fst (network.listener_Close a h ns),
     Some (network.OpError "close" a network.ErrClosed)).
Proof.
  unfold network.listener_Close.
  destruct (network.listeners ns !! h) as [[|]|] eqn:Hh; cbn [fst]; [ | now rewrite Hh ..].
  cbn [network.listeners].
  rewrite list_lookup_insert_eq; [reflexivity|].
  apply lookup_lt_Some in Hh. exact Hh.
Qed.

Lemma listener_Close_releases (a : string) (h : nat) (ns : network.NetState) :
  bool_decide (network.listeners (fst (network.listener_Close a h ns)) !! h = Some true) = false.
Proof.
  apply bool_decide_eq_false.
  unfold network.listener_Close.
  destruct (network.listeners ns !! h) as [[|]|] eqn:Hh; cbn [fst]; [ | congruence ..].
  cbn [network.listeners].
  rewrite list_lookup_insert_eq; [congruence|].
  apply lookup_lt_Some in Hh. exact Hh.
Qed.

(** ** The peers map *)

Lemma run_keeps_peers (i : nat) (o : node.outcome) (w : node.World) :
  node.peers (node.self (node.run i o w)) = node.peers (node.self w).
Proof.
  unfold node.run.
  destruct (node.tasks w !! i) as [[| |c|]|]; try reflexivity.
  - destruct o as [|e]; [destruct (node.port_busy (node.net w))|]; reflexivity.
  - destruct o as [|e]; [|reflexivity].
    destruct (match network.listener _ with Some _ => _ | None => _ end); reflexivity.
Qed.

Lemma Stop_keeps_self (w : node.World) : node.self (fst (node.Stop w)) = node.self w.
Proof.
  unfold node.Stop.
  destruct (network.Close (node.transport (node.self w)) (node.net w)); reflexivity.
Qed.

(** C8: in every state the process can reach from [NewNode], through
    [Start], [Stop] and any scheduling of the [Listen] and [handleConn]
    goroutines, the node's peers map is empty. *)
Theorem peers_never_registered (w : node.World) :
  node.reachable w -> node.peers (node.self w) = ∅.
Proof.
  induction 1 as [src n Hnew | w _ IH | w _ IH | i o w _ IH].
  - unfold node.NewNode in Hnew.
    destruct (rand.Read src 16) as [[rawID rest]|err]; [|discriminate].
    cbn in Hnew. injection Hnew as <-. reflexivity.
  - exact IH.
  - rewrite Stop_keeps_self. exact IH.
  - rewrite run_keeps_peers. exact IH.
Qed.

Lemma peers_never_registered_witness :
  node.reachable sample.stopped0 /\
  node.peers (node.self sample.stopped0) = ∅.
Proof.
  assert (R : node.reachable sample.stopped0).
  { unfold sample.stopped0, sample.listening0, sample.world0.
    apply node.reach_Stop. do 3 apply node.reach_run. apply node.reach_Start.
    apply (node.reach_new sample.entropy0). reflexivity. }
  split; [ exact R | exact (peers_never_registered sample.stopped0 R) ].
Defined.

(** ** The Peer Registry of the specification *)

Lemma conn_Close_releases (c : nat) (ns : network.NetState) :
  bool_decide (network.conns (fst (network.conn_Close c ns)) !! c = Some true) = false.
Proof.
  apply bool_decide_eq_false.
  unfold network.conn_Close.
  destruct (network.conns ns !! c) as [[|]|] eqn:Hc; cbn [fst]; [ | congruence ..].
  cbn [network.conns].
  rewrite list_lookup_insert_eq; [congruence|].
  apply lookup_lt_Some in Hc. exact Hc.
Qed.

(** C7: after [register id c1] and then [register id c2], [get id] returns
    the peer that the second call created, wired to [c2], and the
    connection [c1] is closed. *)
Theorem register_last_writer_wins
  (now1 now2 : time.Time) (id : string) (c1 c2 : nat) (r : registry.Registry) :
  let r1 := fst (registry.register now1 id c1 r) in
  let r2 := fst (registry.register now2 id c2 r1) in
  registry.get id r2 = Some (snd (registry.register now2 id c2 r1)) /\
  peer.conn (snd (registry.register now2 id c2 r1)) = c2 /\
  registry.closed c1 r2 = true.
Proof.
  cbv zeta. unfold registry.get, registry.closed, registry.register.
  cbn [fst snd registry.peers registry.net peer.conn].
  rewrite !lookup_insert_eq. cbn [peer.conn].
  repeat split.
  rewrite conn_Close_releases. reflexivity.
Qed.

(** * Properties of the body-age estimator *)

Section BodyAge.

Variable toLowerCase : string -> string.
Variable StringToNumber : string -> js.Number.
Variable NumberToString : js.Number -> string.

Abbreviation calculateBodyAge :=
  (js.calculateBodyAge toLowerCase StringToNumber NumberToString).
Abbreviation le_Number := (js.le_Number StringToNumber).

(** The falsy values: an absent argument ([undefined]), [null], [false],
    the zeros, NaN and the empty string. *)
Lemma ToBoolean_false_iff (v : js.Value) :
  js.ToBoolean v = false <->
  v = js.Undefined \/ v = js.Null \/ v = js.Boolean false \/
  (exists s, v = js.Num (S754_zero s)) \/ v = js.Num js.NaN \/ v = js.Str "".
Proof.
  split.
  - destruct v as [| |[|]|[s|s| |s m e]|s]; cbn; intros H; try discriminate; eauto 10.
    destruct s; [|discriminate]. do 5 right. reflexivity.
  - intros [->|[->|[->|[[s ->]|[->| ->]]]]]; reflexivity.
Qed.

(** C9: the function returns [null] as soon as one of the four arguments is
    falsy (absent, null, zero, NaN, the empty string, false) or the height
    or the weight is at most zero. *)
Theorem calculateBodyAge_rejects (age gender height weight : js.Value) :
  js.ToBoolean age = false \/ js.ToBoolean gender = false \/
  js.ToBoolean height = false \/ js.ToBoolean weight = false \/
  le_Number height js.zero = true \/ le_Number weight js.zero = true ->
  calculateBodyAge age gender height weight = js.Normal js.Null.
Proof.
  intros H. unfold js.calculateBodyAge.
  destruct H as [->|[->|[->|[->|[->| ->]]]]]; cbn [negb];
    rewrite ?orb_true_r; reflexivity.
Qed.

End BodyAge.

Lemma calculateBodyAge_rejects_witness :
  js.ToBoolean (js.Num js.zero) = false /\
  sample.calc (js.Num js.zero) (js.Str "female") (js.Num sample.cm170) (js.Num sample.kg65)
  = js.Normal js.Null.
Proof.
  split; [ reflexivity | ].
  apply (calculateBodyAge_rejects js.toLowerCase_ascii sample.StringToNumber0
           sample.NumberToString0).
  left. reflexivity.
Defined.

(** ** Signs through the arithmetic *)

Lemma binary_round_aux_sign (s : bool) (mx ex : Z) (lx : location) :
  js.sign_is s (binary_round_aux js.prec js.emax s mx ex lx).
Proof.
  unfold binary_round_aux.
  destruct (shr_fexp js.prec js.emax mx ex lx) as [mrs' e'].
  destruct (shr_fexp js.prec js.emax _ e' loc_Exact) as [mrs'' e''].
  destruct (shr_m mrs''); [ | destruct (Z.leb _ _) | ]; cbn; auto.
Qed.

Lemma mul_sign (sx sy : bool) (x y : js.Number) :
  js.sign_is sx x -> js.sign_is sy y -> js.sign_is (xorb sx sy) (js.mul x y).
Proof.
  destruct x as [s1|s1| |s1 m1 e1], y as [s2|s2| |s2 m2 e2]; cbn;
    intros; subst; auto.
  apply binary_round_aux_sign.
Qed.

Lemma div_sign (sx sy : bool) (x y : js.Number) :
  js.sign_is sx x -> js.sign_is sy y -> js.sign_is (xorb sx sy) (js.div x y).
Proof.
  destruct x as [s1|s1| |s1 m1 e1], y as [s2|s2| |s2 m2 e2]; cbn;
    intros; subst; auto.
  destruct (SFdiv_core_binary _ _ _ _ _ _) as [[mz ez] lz].
  apply binary_round_aux_sign.
Qed.

Lemma binary_normalize_sign_pos (k : Z) :
  (0 < k)%Z -> js.sign_is false (binary_normalize js.prec js.emax k 0 false).
Proof.
  destruct k as [|p|p]; [lia | | lia]. intros _.
  unfold binary_normalize, binary_round.
  destruct (shl_align _ _ _) as [mz ez]. apply binary_round_aux_sign.
Qed.

Lemma Math_round_sign_false (x : js.Number) :
  js.sign_is false x -> js.sign_is false (js.Math_round x).
Proof.
  destruct x as [s|s| |s m e]; cbn [js.sign_is js.Math_round]; auto.
  intros ->. destruct (0 <=? e)%Z eqn:He; [reflexivity|].
  apply Z.leb_gt in He. cbn [cond_Zopp].
  set (k := ((2 * Z.pos m + 2 ^ (- e)) / 2 ^ (1 - e))%Z).
  assert (Hk : (0 <= k)%Z).
  { apply Z.div_pos; [ | apply Z.pow_pos_nonneg; lia ].
    assert (0 < 2 ^ (- e))%Z by (apply Z.pow_pos_nonneg; lia). lia. }
  destruct (k =? 0)%Z eqn:Hk0; [reflexivity|].
  apply Z.eqb_neq in Hk0. apply binary_normalize_sign_pos. lia.
Qed.

Lemma clamp0_sign (x : js.Number) : js.sign_is false (js.clamp0 x).
Proof.
  destruct x as [[|]|[|]| |[|] m e]; cbn; auto.
Qed.

Lemma clamp0_NaN_free (x : js.Number) :
  js.is_nan x = false -> js.positive_or_zero (js.clamp0 x) = true.
Proof.
  destruct x as [[|]|[|]| |[|] m e]; cbn; auto.
Qed.

Lemma sign_false_not_negative (x : js.Number) :
  js.sign_is false x -> SFltb x js.zero = false.
Proof.
  destruct x as [s|s| |s m e]; cbn; intros; subst; reflexivity.
Qed.

Lemma round1_sign (x : js.Number) :
  js.sign_is false x -> js.sign_is false (js.round1 x).
Proof.
  intros Hx. unfold js.round1.
  apply (div_sign false false); [ | reflexivity ].
  apply Math_round_sign_false.
  apply (mul_sign false false); [ exact Hx | reflexivity ].
Qed.

Lemma sign_false_number_is_at_least_zero (x : js.Number) :
  js.sign_is false x -> js.is_nan x = false -> SFleb js.zero x = true.
Proof.
  destruct x as [s|s| |s m e]; cbn; intros; subst; auto; discriminate.
Qed.

(** ** Where NaN cannot arise *)

Lemma shr_1_nonneg (mrs : shr_record) :
  (0 <= shr_m mrs)%Z -> (0 <= shr_m (shr_1 mrs))%Z.
Proof.
  destruct mrs as [m r s]. destruct m as [|[p|p|]|[p|p|]]; cbn; lia.
Qed.

Lemma iter_shr_1_nonneg (p : positive) (mrs : shr_record) :
  (0 <= shr_m mrs)%Z -> (0 <= shr_m (SpecFloat.iter_pos shr_1 p mrs))%Z.
Proof.
  revert mrs. induction p as [p IH|p IH|]; intros mrs H; cbn [SpecFloat.iter_pos].
  - apply IH, IH, shr_1_nonneg, H.
  - apply IH, IH, H.
  - apply shr_1_nonneg, H.
Qed.

Lemma shr_fexp_nonneg (m e : Z) (l : location) :
  (0 <= m)%Z -> (0 <= shr_m (fst (shr_fexp js.prec js.emax m e l)))%Z.
Proof.
  intros H. unfold shr_fexp, shr.
  assert (H0 : (0 <= shr_m (shr_record_of_loc m l))%Z)
    by (destruct l as [|[| |]]; exact H).
  destruct (_ - e)%Z; cbn [fst]; auto using iter_shr_1_nonneg.
Qed.

Lemma round_nearest_even_nonneg (mx : Z) (lx : location) :
  (0 <= mx)%Z -> (0 <= round_nearest_even mx lx)%Z.
Proof.
  intros H. destruct lx as [|[| |]]; cbn; [ | destruct (Z.even mx) | | ]; lia.
Qed.

Lemma binary_round_aux_number (s : bool) (mx ex : Z) (lx : location) :
  (0 <= mx)%Z -> js.is_nan (binary_round_aux js.prec js.emax s mx ex lx) = false.
Proof.
  intros H. unfold binary_round_aux.
  pose proof (shr_fexp_nonneg mx ex lx H) as H1.
  destruct (shr_fexp js.prec js.emax mx ex lx) as [mrs' e']. cbn [fst] in H1.
  pose proof (shr_fexp_nonneg _ e' loc_Exact
                (round_nearest_even_nonneg _ (loc_of_shr_record mrs') H1)) as H2.
  destruct (shr_fexp js.prec js.emax _ e' loc_Exact) as [mrs'' e'']. cbn [fst] in H2.
  destruct (shr_m mrs''); [ | destruct (Z.leb _ _) | lia ]; reflexivity.
Qed.

Lemma positive_or_zero_iff (x : js.Number) :
  js.positive_or_zero x = true <-> js.sign_is false x /\ js.is_nan x = false.
Proof.
  destruct x as [[|]|[|]| |[|] m e]; cbn; intuition congruence.
Qed.

Lemma binary_round_aux_positive (mx ex : Z) (lx : location) :
  (0 <= mx)%Z ->
  js.positive_or_zero (binary_round_aux js.prec js.emax false mx ex lx) = true.
Proof.
  intros H. apply positive_or_zero_iff.
  split; [ apply binary_round_aux_sign | apply binary_round_aux_number, H ].
Qed.

Lemma binary_normalize_number (k e : Z) (sz : bool) :
  js.is_nan (binary_normalize js.prec js.emax k e sz) = false.
Proof.
  destruct k as [|p|p]; [reflexivity | | ]; unfold binary_normalize, binary_round;
    destruct (shl_align _ _ _) as [mz ez]; apply binary_round_aux_number; lia.
Qed.

Lemma binary_normalize_positive (k e : Z) :
  (0 < k)%Z -> js.positive_or_zero (binary_normalize js.prec js.emax k e false) = true.
Proof.
  destruct k as [|p|p]; [lia | | lia]. intros _.
  unfold binary_normalize, binary_round.
  destruct (shl_align _ _ _) as [mz ez]. apply binary_round_aux_positive. lia.
Qed.

Lemma div_core_nonneg (m1 m2 : positive) (e1 e2 : Z) :
  (0 <= fst (fst (SFdiv_core_binary js.prec js.emax (Z.pos m1) e1 (Z.pos m2) e2)))%Z.
Proof.
  unfold SFdiv_core_binary.
  set (s := (e1 - e2 - _)%Z).
  set (m' := match s with Z.pos _ => Z.shiftl (Z.pos m1) s | 0%Z => Z.pos m1 | Z.neg _ => 0%Z end).
  assert (Hm : (0 <= m')%Z).
  { subst m'. destruct s; [lia | | lia]. apply Z.shiftl_nonneg. lia. }
  pose proof (Z.div_pos m' (Z.pos m2) Hm ltac:(lia)) as Hq.
  unfold Z.div in Hq.
  destruct (Z.div_eucl m' (Z.pos m2)) as [q r]. exact Hq.
Qed.

Lemma mul_positive_finite_l (m : positive) (e : Z) (y : js.Number) :
  js.positive_or_zero y = true ->
  js.positive_or_zero (js.mul (S754_finite false m e) y) = true.
Proof.
  destruct y as [[|]|[|]| |[|] m2 e2]; cbn; try discriminate; auto.
  intros _. apply binary_round_aux_positive. lia.
Qed.

Lemma mul_positive_finite_r (m : positive) (e : Z) (x : js.Number) :
  js.positive_or_zero x = true ->
  js.positive_or_zero (js.mul x (S754_finite false m e)) = true.
Proof.
  destruct x as [[|]|[|]| |[|] m2 e2]; cbn; try discriminate; auto.
  intros _. apply binary_round_aux_positive. lia.
Qed.

Lemma mul_self_positive (x : js.Number) :
  js.positive_or_zero x = true -> js.positive_or_zero (js.mul x x) = true.
Proof.
  destruct x as [[|]|[|]| |[|] m e]; cbn; try discriminate; auto.
  intros _. apply binary_round_aux_positive. lia.
Qed.

Lemma div_positive_finite_l (m : positive) (e : Z) (y : js.Number) :
  js.positive_or_zero y = true ->
  js.positive_or_zero (js.div (S754_finite false m e) y) = true.
Proof.
  destruct y as [[|]|[|]| |[|] m2 e2]; cbn; try discriminate; auto.
  intros _. pose proof (div_core_nonneg m m2 e e2) as H.
  destruct (SFdiv_core_binary _ _ _ _ _ _) as [[mz ez] lz].
  apply binary_round_aux_positive. exact H.
Qed.

Lemma div_positive_finite_r (m : positive) (e : Z) (x : js.Number) :
  js.positive_or_zero x = true ->
  js.positive_or_zero (js.div x (S754_finite false m e)) = true.
Proof.
  destruct x as [[|]|[|]| |[|] m2 e2]; cbn; try discriminate; auto.
  intros _. pose proof (div_core_nonneg m2 m e2 e) as H.
  destruct (SFdiv_core_binary _ _ _ _ _ _) as [[mz ez] lz].
  apply binary_round_aux_positive. exact H.
Qed.

Lemma add_positive (x y : js.Number) :
  js.positive_or_zero x = true -> js.positive_or_zero y = true ->
  js.positive_or_zero (js.add x y) = true.
Proof.
  destruct x as [[|]|[|]| |[|] m1 e1], y as [[|]|[|]| |[|] m2 e2]; cbn;
    try discriminate; auto.
  intros _ _. apply binary_normalize_positive. lia.
Qed.

Lemma sub_finite_number (x : js.Number) (s : bool) (m : positive) (e : Z) :
  js.is_nan x = false -> js.is_nan (js.sub x (S754_finite s m e)) = false.
Proof.
  destruct x as [s1|s1| |s1 m1 e1]; cbn; try discriminate; auto.
  intros _. apply binary_normalize_number.
Qed.

Lemma mul_finite_number (x : js.Number) (s : bool) (m : positive) (e : Z) :
  js.is_nan x = false -> js.is_nan (js.mul x (S754_finite s m e)) = false.
Proof.
  destruct x as [s1|s1| |s1 m1 e1]; cbn; try discriminate; auto.
  intros _. apply binary_round_aux_number. lia.
Qed.

Lemma add_finite_number (s : bool) (m : positive) (e : Z) (y : js.Number) :
  js.is_nan y = false -> js.is_nan (js.add (S754_finite s m e) y) = false.
Proof.
  destruct y as [s1|s1| |s1 m1 e1]; cbn; try discriminate; auto.
  intros _. apply binary_normalize_number.
Qed.

Lemma Math_round_positive (x : js.Number) :
  js.positive_or_zero x = true -> js.positive_or_zero (js.Math_round x) = true.
Proof.
  destruct x as [[|]|[|]| |[|] m e]; cbn [js.positive_or_zero js.Math_round];
    try discriminate; auto.
  intros _. destruct (0 <=? e)%Z eqn:He; [reflexivity|].
  apply Z.leb_gt in He. cbn [cond_Zopp].
  set (k := ((2 * Z.pos m + 2 ^ (- e)) / 2 ^ (1 - e))%Z).
  assert (Hk : (0 <= k)%Z).
  { apply Z.div_pos; [ | apply Z.pow_pos_nonneg; lia ].
    assert (0 < 2 ^ (- e))%Z by (apply Z.pow_pos_nonneg; lia). lia. }
  destruct (k =? 0)%Z eqn:Hk0; [reflexivity|].
  apply Z.eqb_neq in Hk0. apply binary_normalize_positive. lia.
Qed.

Lemma round1_positive (x : js.Number) :
  js.positive_or_zero x = true -> js.positive_or_zero (js.round1 x) = true.
Proof.
  intros Hx. unfold js.round1, js.n10.
  apply div_positive_finite_r, Math_round_positive, mul_positive_finite_r, Hx.
Qed.

(** ** The accepted inputs *)

Lemma positive_or_zero_number (x : js.Number) :
  js.positive_or_zero x = true -> js.is_nan x = false.
Proof. intros H. apply positive_or_zero_iff in H. tauto. Qed.

Lemma positive_or_zero_at_least_zero (x : js.Number) :
  js.positive_or_zero x = true -> SFleb js.zero x = true.
Proof.
  intros H. apply positive_or_zero_iff in H.
  apply sign_false_number_is_at_least_zero; tauto.
Qed.

(** A finite number above zero is a positive finite float. *)
Lemma finite_above_zero (x : js.Number) :
  js.is_finite x = true -> SFltb js.zero x = true ->
  exists m e, x = S754_finite false m e.
Proof.
  destruct x as [s|s| |[|] m e]; cbn; try discriminate; eauto.
Qed.

(** A truthy number that is not [<= 0] is above zero. *)
Lemma above_zero (StringToNumber : string -> js.Number) (x : js.Number) :
  js.ToBoolean (js.Num x) = true ->
  js.le_Number StringToNumber (js.Num x) js.zero = false ->
  SFltb js.zero x = true.
Proof.
  destruct x as [s|[|]| |[|] m e]; cbn; intros; try discriminate; reflexivity.
Qed.

Lemma bodyAge_of_finite_inputs (a h w c : js.Number) :
  (exists m e, a = S754_finite false m e) ->
  (exists m e, h = S754_finite false m e) ->
  (exists m e, w = S754_finite false m e) ->
  (exists s m e, c = S754_finite s m e) ->
  js.positive_or_zero
    (js.round1 (js.clamp0 (js.bodyAgeRaw_of a
       (js.sub (js.add (js.mul js.n1_20 (js.bmi_of h w)) (js.mul js.n0_23 a)) c))))
  = true.
Proof.
  intros (ma & ea & ->) (mh & eh & ->) (mw & ew & ->) (sc & mc & ec & ->).
  apply round1_positive, clamp0_NaN_free.
  unfold js.bodyAgeRaw_of, js.n0_5, js.n18.
  apply add_finite_number, mul_finite_number, sub_finite_number, sub_finite_number.
  apply positive_or_zero_number, add_positive.
  - unfold js.n1_20, js.bmi_of, js.n100.
    apply mul_positive_finite_l, div_positive_finite_l, mul_self_positive.
    apply div_positive_finite_r. reflexivity.
  - unfold js.n0_23. apply mul_positive_finite_l. reflexivity.
Qed.

Section Accepted.

Variable toLowerCase : string -> string.
Variable StringToNumber : string -> js.Number.
Variable NumberToString : js.Number -> string.

(** C10 (amended): on numbers and a string that pass the validation, the
    function returns the clamped raw body age rounded to one decimal place,
    [Math.round(max(0, raw) * 10) / 10] with
    [raw = age + (bodyFat - 18) * 0.5], where the male body-fat formula is
    used when the lower-cased gender is "male" and the female one for every
    other string. The result is never negative: it is at least zero
    whenever it is a number, and it is a number (not NaN) at least when
    age, height and weight are finite and the age is above zero. *)
Theorem calculateBodyAge_accepted (a h w : js.Number) (g : string) :
  js.ToBoolean (js.Num a) = true ->
  js.ToBoolean (js.Str g) = true ->
  js.ToBoolean (js.Num h) = true ->
  js.ToBoolean (js.Num w) = true ->
  js.le_Number StringToNumber (js.Num h) js.zero = false ->
  js.le_Number StringToNumber (js.Num w) js.zero = false ->
  let bodyFat :=
    if String.eqb (toLowerCase g) "male"
    then js.male_bodyFat (js.bmi_of h w) a
    else js.female_bodyFat (js.bmi_of h w) a in
  let r := js.round1 (js.clamp0 (js.bodyAgeRaw_of a bodyFat)) in
  js.calculateBodyAge toLowerCase StringToNumber NumberToString
    (js.Num a) (js.Str g) (js.Num h) (js.Num w) = js.Normal (js.Num r) /\
  SFltb r js.zero = false /\
  (js.is_nan r = false -> SFleb js.zero r = true) /\
  (js.is_finite a = true -> js.is_finite h = true -> js.is_finite w = true ->
   SFltb js.zero a = true -> SFleb js.zero r = true).
Proof.
  intros Ha Hg Hh Hw Hh0 Hw0 bodyFat r.
  assert (Hsign : js.sign_is false r) by apply round1_sign, clamp0_sign.
  repeat split.
  - unfold js.calculateBodyAge. rewrite Ha, Hg, Hh, Hw, Hh0, Hw0. cbn [negb orb].
    subst r bodyFat. cbn [js.ToNumber js.plus_Number].
    destruct (String.eqb (toLowerCase g) "male"); reflexivity.
  - apply sign_false_not_negative, Hsign.
  - apply sign_false_number_is_at_least_zero, Hsign.
  - intros Fa Fh Fw Hpos.
    apply positive_or_zero_at_least_zero. subst r bodyFat.
    pose proof (above_zero StringToNumber h Hh Hh0) as Hh'.
    pose proof (above_zero StringToNumber w Hw Hw0) as Hw'.
    destruct (String.eqb (toLowerCase g) "male");
      unfold js.male_bodyFat, js.female_bodyFat;
      apply bodyAge_of_finite_inputs; auto using finite_above_zero;
      do 3 eexists; reflexivity.
Qed.

End Accepted.

Lemma calculateBodyAge_accepted_witness :
  sample.calc (js.Num sample.thirty) (js.Str "Male") (js.Num sample.cm170) (js.Num sample.kg65)
  = js.Normal (js.Num (S754_finite false 8387954305977549 (-48))) (* 29.8 *) /\
  SFleb js.zero (S754_finite false 8387954305977549 (-48)) = true.
Proof.
  pose proof (calculateBodyAge_accepted js.toLowerCase_ascii sample.StringToNumber0
                sample.NumberToString0 sample.thirty sample.cm170 sample.kg65 "Male"
                eq_refl eq_refl eq_refl eq_refl eq_refl eq_refl) as H.
  cbv zeta in H. destruct H as (Hr & _ & _ & Hpos).
  split.
  - unfold sample.calc. rewrite Hr. vm_compute. reflexivity.
  - reflexivity.
Defined.

(** C10 (as stated, refuted): with an infinite height and weight, both above
    zero and truthy, the function returns NaN, and [0 <= NaN] is false. *)
Lemma calculateBodyAge_NaN :
  sample.calc (js.Num sample.thirty) (js.Str "male")
    (js.Num js.Infinity) (js.Num js.Infinity) = js.Normal (js.Num js.NaN) /\
  SFleb js.zero js.NaN = false.
Proof. split; vm_compute; reflexivity. Qed.

(** * The envelope: encoding and decoding *)

(** ** Literals *)


(** ** base64 *)









(** ** Decimal fields *)

Lemma N_of_digit (d : Z) :
  (0 <= d <= 9)%Z -> N_of_ascii (time.digit d) = Z.to_N (48 + d).
Proof. intros H. unfold time.digit. apply N_ascii_embedding. lia. Qed.

Lemma isDigit_digit (d : Z) : (0 <= d <= 9)%Z -> time.isDigit (time.digit d) = true.
Proof.
  intros H. unfold time.isDigit. rewrite N_of_digit by exact H.
  apply andb_true_intro; split; apply N.leb_le; lia.
Qed.


Lemma length_decimal (k : nat) (u : Z) : length (time.decimal k u) = k.
Proof.
  revert u. induction k as [|k IH]; intros u; cbn [time.decimal]; [reflexivity|].
  rewrite length_app, IH. cbn. lia.
Qed.

Lemma decimal_digits (k : nat) (u : Z) :
  (0 <= u)%Z -> Forall (fun c => time.isDigit c = true) (time.decimal k u).
Proof.
  revert u. induction k as [|k IH]; intros u Hu; cbn [time.decimal]; [constructor|].
  apply Forall_app; split.
  - apply IH. apply Z.div_pos; lia.
  - constructor; [|constructor]. apply isDigit_digit.
    pose proof (Z.mod_pos_bound u 10). lia.
Qed.








(** The count of digits does not run out of steps: more of them change
    nothing. *)
Lemma numDigits_loop_enough (fuel extra : nat) (u : Z) :
  (u < 2 ^ Z.of_nat fuel)%Z ->
  time.numDigits_loop (fuel + extra) u = time.numDigits_loop fuel u.
Proof.
  revert u. induction fuel as [|fuel IH]; intros u Hu.
  - cbn in Hu. destruct extra as [|extra]; [reflexivity|].
    cbn [Nat.add time.numDigits_loop].
    destruct (0 <? u)%Z eqn:Hpos; [apply Z.ltb_lt in Hpos; lia | reflexivity].
  - cbn [Nat.add time.numDigits_loop].
    destruct (0 <? u)%Z eqn:Hpos; [|reflexivity].
    apply Z.ltb_lt in Hpos. f_equal. apply IH.
    rewrite Nat2Z.inj_succ, Z.pow_succ_r in Hu by lia.
    apply Z.div_lt_upper_bound; lia.
Qed.

Lemma numDigits_enough (extra : nat) (u : Z) :
  (0 < u)%Z ->
  time.numDigits_loop (S (Z.to_nat (Z.log2 u)) + extra) u = time.numDigits u.
Proof.
  intros Hu. unfold time.numDigits.
  destruct (u =? 0)%Z eqn:H0; [apply Z.eqb_eq in H0; lia|].
  apply numDigits_loop_enough.
  pose proof (Z.log2_spec u Hu) as [_ Hlt].
  pose proof (Z.log2_nonneg u).
  rewrite Nat2Z.inj_succ, Z2Nat.id by lia. exact Hlt.
Qed.



(** ** The fraction of a second *)








(** ** The zone and the whole timestamp *)










(** ** Runes *)











(** ** JSON strings *)








(** ** The round trip *)









(** * The life of the process: [Start], [Stop] and the goroutines *)

Lemma run_keeps_identity (i : nat) (o : node.outcome) (w : node.World) :
  node.ID (node.self (node.run i o w)) = node.ID (node.self w) /\
  network.addr (node.transport (node.self (node.run i o w)))
  = network.addr (node.transport (node.self w)).
Proof.
  unfold node.run.
  destruct (node.tasks w !! i) as [[| |c|]|]; try (split; reflexivity).
  - destruct o as [|e]; [destruct (node.port_busy (node.net w))|]; split; reflexivity.
  - destruct o as [|e]; [|split; reflexivity].
    destruct (match network.listener _ with Some _ => _ | None => _ end);
      split; reflexivity.
Qed.

(** X1: no call of [Start] or [Stop] and no step of a goroutine changes
    the node's ID or the address its transport listens on. *)
Theorem identity_is_kept (w : node.World) (l : list lifecycle.event) :
  node.ID (node.self (lifecycle.exec w l)) = node.ID (node.self w) /\
  network.addr (node.transport (node.self (lifecycle.exec w l)))
  = network.addr (node.transport (node.self w)).
Proof.
  revert w. induction l as [|e l IH]; intros w; [split; reflexivity|].
  cbn [lifecycle.exec fold_left]. fold (lifecycle.exec (lifecycle.step w e) l).
  destruct (IH (lifecycle.step w e)) as [-> ->].
  destruct e as [| |i o]; cbn [lifecycle.step].
  - split; reflexivity.
  - rewrite Stop_keeps_self. split; reflexivity.
  - apply run_keeps_identity.
Qed.

Lemma run_keeps_accepting (i j : nat) (o : node.outcome) (w : node.World) :
  node.tasks w !! i = Some node.TAccept ->
  node.tasks (node.run j o w) !! i = Some node.TAccept.
Proof.
  intros Hi. unfold node.run.
  destruct (node.tasks w !! j) as [[| |c|]|] eqn:Hj; try exact Hi.
  - assert (j <> i) by (intros ->; congruence).
    destruct o as [|e]; [destruct (node.port_busy (node.net w))|];
      cbn [node.tasks]; rewrite list_lookup_insert_ne by assumption; exact Hi.
  - destruct o as [|e]; [|exact Hi].
    destruct (match network.listener _ with Some _ => _ | None => _ end);
      [|exact Hi].
    cbn [node.tasks]. rewrite lookup_app_l; [exact Hi|].
    eapply lookup_lt_Some, Hi.
  - assert (j <> i) by (intros ->; congruence).
    unfold network.handleConn. cbn [node.tasks].
    rewrite list_lookup_insert_ne by assumption. exact Hi.
Qed.

(** X2: a [Listen] goroutine that has entered its accept loop never
    leaves it: whatever happens afterwards, [Stop] included, the goroutine
    is still in the loop. *)
Theorem accept_loop_never_ends (w : node.World) (i : nat) (l : list lifecycle.event) :
  node.tasks w !! i = Some node.TAccept ->
  node.tasks (lifecycle.exec w l) !! i = Some node.TAccept.
Proof.
  revert w. induction l as [|e l IH]; intros w Hi; [exact Hi|].
  cbn [lifecycle.exec fold_left]. apply IH.
  destruct e as [| |j o]; cbn [lifecycle.step].
  - cbn [node.Start fst node.tasks]. rewrite lookup_app_l; [exact Hi|].
    eapply lookup_lt_Some, Hi.
  - unfold node.Stop.
    destruct (network.Close (node.transport (node.self w)) (node.net w)).
    exact Hi.
  - apply run_keeps_accepting, Hi.
Qed.

Lemma accept_loop_never_ends_witness :
  node.tasks sample.listening0 !! 0%nat = Some node.TAccept /\
  node.tasks
    (lifecycle.exec sample.listening0
       [lifecycle.CallStop; lifecycle.Sched 0 node.Succeeds;
        lifecycle.Sched 0 (node.Fails "closed")]) !! 0%nat
  = Some node.TAccept.
Proof.
  split; [reflexivity|].
  apply (accept_loop_never_ends sample.listening0 0). reflexivity.
Defined.

(** ** After [Stop] *)

Lemma listener_Close_not_open (a : string) (h : nat) (ns : network.NetState) :
  network.listeners (fst (network.listener_Close a h ns)) !! h <> Some true /\
  network.conns (fst (network.listener_Close a h ns)) = network.conns ns.
Proof.
  unfold network.listener_Close.
  destruct (network.listeners ns !! h) as [[|]|] eqn:Hh;
    cbn [fst network.listeners network.conns]; split;
    try reflexivity; try congruence.
  rewrite list_lookup_insert.
  destruct (decide (h = h /\ (h < length (network.listeners ns))%nat)) as [_|n];
    [discriminate|].
  exfalso. apply n. split; [reflexivity|]. eapply lookup_lt_Some, Hh.
Qed.

Lemma Stop_not_listening (w : node.World) :
  lifecycle.listening (fst (node.Stop w)) = false /\
  network.conns (node.net (fst (node.Stop w))) = network.conns (node.net w) /\
  node.tasks (fst (node.Stop w)) = node.tasks w.
Proof.
  unfold lifecycle.listening, node.Stop, network.Close.
  destruct (network.listener (node.transport (node.self w))) as [h|] eqn:Hl.
  - destruct (listener_Close_not_open
                (network.laddr (network.addr (node.transport (node.self w))))
                h (node.net w)) as [H1 H2].
    destruct (network.listener_Close _ h (node.net w)) as [ns e].
    cbn [fst node.self node.net node.tasks] in *. rewrite Hl.
    repeat split; [|exact H2].
    apply bool_decide_eq_false. exact H1.
  - cbn [fst node.self node.net node.tasks]. rewrite Hl. repeat split.
Qed.

Lemma shut_run (n i : nat) (o : node.outcome) (w : node.World) :
  lifecycle.shut n w -> lifecycle.shut n (node.run i o w).
Proof.
  intros (Ht & Hl & Hn). unfold node.run.
  destruct (node.tasks w !! i) as [[| |c|]|] eqn:Hi; try (repeat split; assumption).
  - exfalso. rewrite Forall_lookup in Ht. exact (Ht i _ Hi eq_refl).
  - unfold lifecycle.listening in Hl. rewrite Hl.
    destruct o as [|e]; repeat split; assumption.
  - unfold network.handleConn, network.conn_Close.
    destruct (network.conns (node.net w) !! c) as [[|]|];
      cbn [fst]; (split; [|split]);
      cbn [node.tasks node.net node.self network.conns network.listeners];
      try (apply Forall_insert; [assumption|discriminate]);
      try exact Hl; try exact Hn.
    rewrite length_insert. exact Hn.
Qed.

Lemma shut_Stop (n : nat) (w : node.World) : lifecycle.shut n w -> lifecycle.shut n (fst (node.Stop w)).
Proof.
  intros (Ht & Hl & Hn). destruct (Stop_not_listening w) as (H1 & H2 & H3).
  unfold lifecycle.shut. rewrite H1, H2, H3. repeat split; assumption.
Qed.

(** X3: once [Stop] has been called and no [Listen] goroutine is still
    on its way to bind the socket, the process accepts no connection any
    more, whatever the environment offers, unless [Start] is called again:
    the number of connections stays what it was and the transport's
    listener stays closed. *)
Theorem nothing_accepted_after_Stop (w : node.World) (l : list lifecycle.event) :
  Forall (fun t => t <> node.TListen) (node.tasks w) ->
  forallb (fun e => negb (lifecycle.is_CallStart e)) l = true ->
  let w' := lifecycle.exec (fst (node.Stop w)) l in
  length (network.conns (node.net w')) = length (network.conns (node.net w)) /\
  lifecycle.listening w' = false.
Proof.
  intros Ht Hl w'.
  assert (H0 : lifecycle.shut (length (network.conns (node.net w))) (fst (node.Stop w))).
  { destruct (Stop_not_listening w) as (H1 & H2 & H3).
    unfold lifecycle.shut. rewrite H1, H2, H3. repeat split. exact Ht. }
  subst w'. revert H0 Hl. generalize (fst (node.Stop w)) as v.
  generalize (length (network.conns (node.net w))) as n.
  induction l as [|e l IH]; intros n v Hv Hl.
  - destruct Hv as (_ & H1 & H2). split; assumption.
  - cbn [forallb] in Hl. apply andb_true_iff in Hl as [He Hl].
    cbn [lifecycle.exec fold_left]. apply IH; [|exact Hl].
    destruct e as [| |i o]; [discriminate He| |]; cbn [lifecycle.step].
    + apply shut_Stop, Hv.
    + apply shut_run, Hv.
Qed.

Lemma nothing_accepted_after_Stop_witness :
  Forall (fun t => t <> node.TListen) (node.tasks sample.listening0) /\
  length (network.conns (node.net
    (lifecycle.exec (fst (node.Stop sample.listening0))
       [lifecycle.Sched 0 node.Succeeds; lifecycle.CallStop;
        lifecycle.Sched 0 node.Succeeds]))) = 0%nat.
Proof.
  assert (H : Forall (fun t => t <> node.TListen) (node.tasks sample.listening0)).
  { repeat constructor. discriminate. }
  split; [exact H|].
  exact (proj1 (nothing_accepted_after_Stop sample.listening0
                  [lifecycle.Sched 0 node.Succeeds; lifecycle.CallStop;
                   lifecycle.Sched 0 node.Succeeds] H eq_refl)).
Defined.

(** X4: [Stop] does not cancel a [Listen] that has not bound its socket
    yet. Called in that window it returns nil and leaves the sockets as
    they are, and when the goroutine then binds, the node is listening
    although it was stopped. *)
Theorem Stop_before_bind (w : node.World) (i : nat) :
  network.listener (node.transport (node.self w)) = None ->
  node.tasks w !! i = Some node.TListen ->
  node.port_busy (node.net w) = false ->
  snd (node.Stop w) = None /\
  node.net (fst (node.Stop w)) = node.net w /\
  lifecycle.listening (node.run i node.Succeeds (fst (node.Stop w))) = true /\
  node.tasks (node.run i node.Succeeds (fst (node.Stop w))) !! i = Some node.TAccept.
Proof.
  intros Hl Hi Hp. unfold node.Stop, network.Close. rewrite Hl.
  cbn [fst snd]. repeat split.
  - unfold node.run, lifecycle.listening. cbn [node.tasks node.net node.self].
    rewrite Hi, Hp. cbn [node.self node.net node.set_listener node.transport
                         network.listener network.listeners].
    apply bool_decide_eq_true.
    rewrite lookup_app_r by reflexivity. rewrite Nat.sub_diag. reflexivity.
  - unfold node.run. cbn [node.tasks node.net node.self].
    rewrite Hi, Hp. cbn [node.tasks].
    rewrite list_lookup_insert.
    destruct (decide (i = i /\ (i < length (node.tasks w))%nat)) as [_|n];
      [reflexivity|].
    exfalso. apply n. split; [reflexivity|]. eapply lookup_lt_Some, Hi.
Qed.

Lemma Stop_before_bind_witness :
  snd (node.Stop (fst (node.Start sample.world0))) = None /\
  lifecycle.listening
    (node.run 0 node.Succeeds (fst (node.Stop (fst (node.Start sample.world0)))))
  = true.
Proof.
  destruct (Stop_before_bind (fst (node.Start sample.world0)) 0
              eq_refl eq_refl eq_refl) as (H1 & _ & H2 & _).
  split; assumption.
Defined.

(** ** Connections *)

Lemma run_open_conns (i : nat) (o : node.outcome) (w : node.World) :
  (forall c, network.conns (node.net w) !! c = Some true ->
             exists j, node.tasks w !! j = Some (node.THandle c)) ->
  forall c, network.conns (node.net (node.run i o w)) !! c = Some true ->
            exists j, node.tasks (node.run i o w) !! j = Some (node.THandle c).
Proof.
  intros IH c. unfold node.run.
  destruct (node.tasks w !! i) as [[| |d|]|] eqn:Hi; try apply IH.
  - assert (K : forall t, t <> node.THandle c ->
              network.conns (node.net w) !! c = Some true ->
              exists j, <[i := t]> (node.tasks w) !! j = Some (node.THandle c)).
    { intros t _ Hc. destruct (IH c Hc) as [j Hj]. exists j.
      rewrite list_lookup_insert_ne; [exact Hj|]. intros ->. congruence. }
    destruct o as [|e]; [destruct (node.port_busy (node.net w))|];
      cbn [node.net node.tasks network.conns]; apply K; discriminate.
  - destruct o as [|e]; [|apply IH].
    destruct (match network.listener _ with Some _ => _ | None => _ end);
      [|apply IH].
    cbn [node.net node.tasks network.conns]. intros Hc.
    destruct (decide (c < length (network.conns (node.net w)))%nat) as [Hlt|Hge].
    + rewrite lookup_app_l in Hc by exact Hlt.
      destruct (IH c Hc) as [j Hj]. exists j.
      rewrite lookup_app_l; [exact Hj|]. eapply lookup_lt_Some, Hj.
    + assert (c = length (network.conns (node.net w))).
      { apply lookup_lt_Some in Hc. rewrite length_app in Hc. cbn in Hc. lia. }
      subst c. exists (length (node.tasks w)).
      rewrite lookup_app_r by reflexivity. rewrite Nat.sub_diag. reflexivity.
  - unfold network.handleConn, network.conn_Close.
    destruct (network.conns (node.net w) !! d) as [[|]|] eqn:Hd;
      cbn [fst node.net node.tasks network.conns]; intros Hc.
    + destruct (decide (d = c)) as [->|Hne].
      * rewrite list_lookup_insert in Hc.
        destruct (decide (c = c /\ (c < length (network.conns (node.net w)))%nat))
          as [_|n]; [discriminate|].
        exfalso. apply n. split; [reflexivity|]. eapply lookup_lt_Some, Hd.
      * rewrite list_lookup_insert_ne in Hc by exact Hne.
        destruct (IH c Hc) as [j Hj]. exists j.
        rewrite list_lookup_insert_ne; [exact Hj|]. intros ->. congruence.
    + destruct (IH c Hc) as [j Hj]. exists j.
      rewrite list_lookup_insert_ne; [exact Hj|]. intros ->. congruence.
    + destruct (IH c Hc) as [j Hj]. exists j.
      rewrite list_lookup_insert_ne; [exact Hj|]. intros ->. congruence.
Qed.

(** X5: no connection is left open behind: in every state the process
    can reach, a connection that is still open belongs to a [handleConn]
    goroutine that has not run yet; once its handler has run, the
    connection is closed. *)
Theorem open_connections_await_their_handler (w : node.World) (c : nat) :
  node.reachable w ->
  network.conns (node.net w) !! c = Some true ->
  exists j, node.tasks w !! j = Some (node.THandle c).
Proof.
  intros R. revert c.
  induction R as [src n Hnew | w _ IH | w _ IH | i o w _ IH]; intros c.
  - cbn. intros H. rewrite lookup_nil in H. discriminate.
  - cbn [node.Start fst node.net node.tasks]. intros Hc.
    destruct (IH c Hc) as [j Hj]. exists j.
    rewrite lookup_app_l; [exact Hj|]. eapply lookup_lt_Some, Hj.
  - destruct (Stop_not_listening w) as (_ & -> & ->). apply IH.
  - apply run_open_conns, IH.
Qed.

Lemma open_connections_await_their_handler_witness :
  node.reachable (node.run 0 node.Succeeds sample.listening0) /\
  network.conns (node.net (node.run 0 node.Succeeds sample.listening0)) !! 0%nat
  = Some true /\
  exists j, node.tasks (node.run 0 node.Succeeds sample.listening0) !! j
            = Some (node.THandle 0).
Proof.
  assert (R : node.reachable (node.run 0 node.Succeeds sample.listening0)).
  { unfold sample.listening0, sample.world0.
    do 2 apply node.reach_run. apply node.reach_Start.
    apply (node.reach_new sample.entropy0). reflexivity. }
  split; [exact R|]. split; [reflexivity|].
  exact (open_connections_await_their_handler _ 0 R eq_refl).
Defined.

(** ** A second [Start] *)

Lemma listening_port_busy (w : node.World) :
  lifecycle.listening w = true -> node.port_busy (node.net w) = true.
Proof.
  unfold lifecycle.listening, node.port_busy.
  destruct (network.listener (node.transport (node.self w))) as [h|]; [|discriminate].
  intros H. apply bool_decide_eq_true in H.
  apply existsb_exists. exists true. split; [|reflexivity].
  apply list_elem_of_In. eapply list_elem_of_lookup_2, H.
Qed.

(** X6: while the node is listening, the [Listen] goroutine of a further
    [Start] cannot bind the port, whatever the environment would answer,
    and ends at once; its error is returned to nobody: no line is printed,
    and the node and its sockets stay as they are. *)
Theorem second_Listen_ends_unnoticed (w : node.World) (i : nat) (o : node.outcome) :
  lifecycle.listening w = true ->
  node.tasks w !! i = Some node.TListen ->
  node.run i o w
  = {| node.self := node.self w; node.net := node.net w;
       node.tasks := <[i := node.TDone]> (node.tasks w); node.out := node.out w |}.
Proof.
  intros Hl Hi. apply listening_port_busy in Hl.
  unfold node.run. rewrite Hi, Hl. destruct o; reflexivity.
Qed.

Lemma second_Listen_ends_unnoticed_witness :
  lifecycle.listening (fst (node.Start sample.listening0)) = true /\
  node.out (node.run 1 node.Succeeds (fst (node.Start sample.listening0)))
  = node.out (fst (node.Start sample.listening0)) /\
  node.tasks (node.run 1 node.Succeeds (fst (node.Start sample.listening0)))
  = [node.TAccept; node.TDone].
Proof.
  split; [reflexivity|].
  rewrite (second_Listen_ends_unnoticed (fst (node.Start sample.listening0)) 1
             node.Succeeds eq_refl eq_refl).
  split; reflexivity.
Defined.

(** * The program (main.go) *)






(** X7: [NewNode] yields a node exactly when the random source delivers
    sixteen bytes; creating the transport never prevents it. *)
Theorem NewNode_succeeds_iff (src : rand.Source) :
  (exists n, node.NewNode src = inl n) <-> (16 <= length src)%nat.
Proof.
  unfold node.NewNode, rand.Read.
  destruct (16 <=? length src)%nat eqn:H.
  - apply Nat.leb_le in H. cbn. split; [intros _; exact H|eauto].
  - apply Nat.leb_gt in H. split; [intros [n E]; discriminate|lia].
Qed.

Lemma EncodeToString_injective (a b : list byte) :
  hex.EncodeToString a = hex.EncodeToString b -> a = b.
Proof.
  intros H. apply (f_equal hex.DecodeString) in H.
  rewrite !DecodeString_EncodeToString in H. congruence.
Qed.

(** X8: two nodes get the same ID only if the system delivered the same
    sixteen random bytes to both: the ID determines the bytes it was made
    from. *)
Theorem NewNode_ID_injective (src1 src2 : rand.Source) (n1 n2 : node.Node) :
  node.NewNode src1 = inl n1 ->
  node.NewNode src2 = inl n2 ->
  node.ID n1 = node.ID n2 ->
  firstn 16 src1 = firstn 16 src2.
Proof.
  unfold node.NewNode, rand.Read. intros H1 H2 E.
  destruct (16 <=? length src1)%nat; [|discriminate].
  destruct (16 <=? length src2)%nat; [|discriminate].
  cbn in H1, H2. injection H1 as <-. injection H2 as <-.
  cbn [node.ID] in E. apply EncodeToString_injective, E.
Qed.

Lemma NewNode_ID_injective_witness :
  node.NewNode sample.entropy0 = inl sample.node0 /\
  node.NewNode (firstn 16 sample.entropy0) = inl sample.node0 /\
  firstn 16 sample.entropy0 = firstn 16 (firstn 16 sample.entropy0).
Proof.
  split; [reflexivity|]. split; [reflexivity|].
  apply (NewNode_ID_injective sample.entropy0 (firstn 16 sample.entropy0)
           sample.node0 sample.node0); reflexivity.
Defined.



(** With no step of a goroutine in between, [Start] as the program runs
    it is the node's [Start]. *)
Lemma Start_without_steps (w : node.World) : cmd.Start [] w = node.Start w.
Proof. reflexivity. Qed.


(** * More on [ToJSON] *)

Lemma numDigits_loop_ge (k fuel : nat) (u : Z) :
  (10 ^ Z.of_nat k <= u)%Z -> (u < 2 ^ Z.of_nat fuel)%Z ->
  (k < time.numDigits_loop fuel u)%nat.
Proof.
  revert fuel u. induction k as [|k IH]; intros fuel u Hlo Hhi.
  - cbn in Hlo. destruct fuel as [|fuel]; [cbn in Hhi; lia|].
    cbn [time.numDigits_loop].
    destruct (0 <? u)%Z eqn:Hpos; [lia|]. apply Z.ltb_ge in Hpos. lia.
  - rewrite Nat2Z.inj_succ, Z.pow_succ_r in Hlo by lia.
    assert (0 < 10 ^ Z.of_nat k)%Z by (apply Z.pow_pos_nonneg; lia).
    destruct fuel as [|fuel]; [cbn in Hhi; lia|].
    cbn [time.numDigits_loop].
    destruct (0 <? u)%Z eqn:Hpos; [|apply Z.ltb_ge in Hpos; lia].
    apply -> Nat.succ_lt_mono. apply IH.
    + apply Z.div_le_lower_bound; lia.
    + rewrite Nat2Z.inj_succ, Z.pow_succ_r in Hhi by lia.
      apply Z.div_lt_upper_bound; lia.
Qed.

Lemma numDigits_ge (k : nat) (u : Z) :
  (10 ^ Z.of_nat k <= u)%Z -> (k < time.numDigits u)%nat.
Proof.
  intros Hlo.
  assert (0 < 10 ^ Z.of_nat k)%Z by (apply Z.pow_pos_nonneg; lia).
  unfold time.numDigits. destruct (u =? 0)%Z eqn:H0; [apply Z.eqb_eq in H0; lia|].
  apply numDigits_loop_ge; [exact Hlo|].
  assert (Hu : (0 < u)%Z) by lia.
  pose proof (Z.log2_spec u Hu) as [_ Hlt].
  pose proof (Z.log2_nonneg u).
  rewrite Nat2Z.inj_succ, Z2Nat.id by lia. exact Hlt.
Qed.

Lemma digit_is_not_dash (c : ascii) : time.isDigit c = true -> Ascii.eqb c "-" = false.
Proof.
  intros H. destruct (Ascii.eqb_spec c "-"%char) as [->|]; [discriminate H|reflexivity].
Qed.

Lemma nth_decimal_digit (i k : nat) (u : Z) (rest : list ascii) :
  (0 <= u)%Z -> (i < k)%nat ->
  time.isDigit (nth i (time.decimal k u ++ rest) "000"%char) = true.
Proof.
  intros Hu Hi. rewrite app_nth1 by (rewrite length_decimal; exact Hi).
  pose proof (decimal_digits k u Hu) as F.
  rewrite List.Forall_forall in F. apply F, nth_In.
  rewrite length_decimal. exact Hi.
Qed.

Lemma year_out_of_range (t : time.Time) :
  (time.year t < 0 \/ 9999 < time.year t)%Z ->
  time.appendStrictRFC3339 t = inr "year outside of range [0,9999]".
Proof.
  intros Hy. unfold time.appendStrictRFC3339.
  assert (H4 : Ascii.eqb (nth 4 (time.appendFormatRFC3339 t) "000"%char) "-" = false).
  { apply digit_is_not_dash. unfold time.appendFormatRFC3339, time.appendInt at 1.
    destruct (time.year t <? 0)%Z eqn:Hneg.
    - cbn [app nth]. apply nth_decimal_digit; lia.
    - apply Z.ltb_ge in Hneg. cbn [app].
      apply nth_decimal_digit; [lia|].
      rewrite Z.abs_eq by lia.
      pose proof (numDigits_ge 4 (time.year t)) as H.
      cbn [Z.of_nat Pos.of_succ_nat Pos.succ] in H.
      assert (10 ^ 4 = 10000)%Z by reflexivity. lia. }
  rewrite H4. reflexivity.
Qed.

(** X11: [ToJSON] fails on every message whose timestamp has a year
    before 0 or after 9999, with the error of [Time.MarshalJSON], whatever
    the other fields are. *)
Theorem ToJSON_year_out_of_range (m : message.Message) :
  (time.year (message.Timestamp m) < 0 \/ 9999 < time.year (message.Timestamp m))%Z ->
  message.ToJSON m
  = inr "json: error calling MarshalJSON for type time.Time: Time.MarshalJSON: year outside of range [0,9999]".
Proof.
  intros Hy. unfold message.ToJSON, time.MarshalJSON.
  rewrite year_out_of_range by exact Hy. reflexivity.
Qed.

Lemma ToJSON_year_out_of_range_witness :
  message.ToJSON (fst (message.NewTextMessage sample.year10000 "a" "b" "late"))
  = inr "json: error calling MarshalJSON for type time.Time: Time.MarshalJSON: year outside of range [0,9999]".
Proof.
  apply (ToJSON_year_out_of_range
           (fst (message.NewTextMessage sample.year10000 "a" "b" "late"))).
  right. cbn. lia.
Defined.

(** ** Which messages share an encoding *)



(** * The estimator on arbitrary arguments *)

Section Outcomes.

Variable toLowerCase : string -> string.
Variable StringToNumber : string -> js.Number.
Variable NumberToString : js.Number -> string.

Abbreviation calculateBodyAge :=
  (js.calculateBodyAge toLowerCase StringToNumber NumberToString).
Abbreviation le_Number := (js.le_Number StringToNumber).

(** The guard of the function, as one boolean. *)
Lemma guard_false_iff (age gender height weight : js.Value) :
  negb (js.ToBoolean age) || negb (js.ToBoolean gender)
  || negb (js.ToBoolean height) || negb (js.ToBoolean weight)
  || le_Number height js.zero || le_Number weight js.zero = false <->
  js.ToBoolean age = true /\ js.ToBoolean gender = true /\
  js.ToBoolean height = true /\ js.ToBoolean weight = true /\
  le_Number height js.zero = false /\ le_Number weight js.zero = false.
Proof.
  destruct (js.ToBoolean age), (js.ToBoolean gender), (js.ToBoolean height),
    (js.ToBoolean weight), (le_Number height js.zero), (le_Number weight js.zero);
    cbn; intuition congruence.
Qed.

(** X13: the function returns [null] only when its guard fires: if it
    returns [null], one of the four arguments is falsy or the height or the
    weight is at most zero (and conversely). *)
Theorem calculateBodyAge_null_iff (age gender height weight : js.Value) :
  calculateBodyAge age gender height weight = js.Normal js.Null <->
  js.ToBoolean age = false \/ js.ToBoolean gender = false \/
  js.ToBoolean height = false \/ js.ToBoolean weight = false \/
  le_Number height js.zero = true \/ le_Number weight js.zero = true.
Proof.
  unfold js.calculateBodyAge.
  destruct (negb (js.ToBoolean age) || negb (js.ToBoolean gender)
            || negb (js.ToBoolean height) || negb (js.ToBoolean weight)
            || le_Number height js.zero || le_Number weight js.zero) eqn:G.
  - split; [intros _|reflexivity].
    destruct (js.ToBoolean age), (js.ToBoolean gender), (js.ToBoolean height),
      (js.ToBoolean weight), (le_Number height js.zero), (le_Number weight js.zero);
      cbn in G; try discriminate G; tauto.
  - apply guard_false_iff in G. destruct G as (Ha & Hg & Hh & Hw & Hh0 & Hw0).
    split.
    + destruct gender; discriminate.
    + intros [H|[H|[H|[H|[H|H]]]]]; congruence.
Qed.


(** X15: whatever the arguments are, strings and booleans included, a
    call ends in one of three ways: it throws the TypeError, it returns
    [null], or it returns a number that is not below zero, neither a
    negative number nor the negative zero (it may be NaN). *)
Theorem calculateBodyAge_never_below_zero (age gender height weight : js.Value) :
  calculateBodyAge age gender height weight = js.ThrowTypeError \/
  calculateBodyAge age gender height weight = js.Normal js.Null \/
  exists r, calculateBodyAge age gender height weight = js.Normal (js.Num r) /\
            js.sign_is false r /\ SFltb r js.zero = false.
Proof.
  unfold js.calculateBodyAge.
  destruct (negb (js.ToBoolean age) || negb (js.ToBoolean gender)
            || negb (js.ToBoolean height) || negb (js.ToBoolean weight)
            || le_Number height js.zero || le_Number weight js.zero);
    [right; left; reflexivity|].
  destruct gender as [| |b|x|g]; try (left; reflexivity).
  right. right. eexists. split; [reflexivity|].
  assert (S : forall x, js.sign_is false
                (js.div (js.Math_round (js.mul (js.Math_max [js.zero; x]) js.n10)) js.n10)).
  { intros x. apply (round1_sign (js.clamp0 x)), clamp0_sign. }
  split; [apply S|apply sign_false_not_negative, S].
Qed.

(** X16: for numbers that pass the guard, a raw body age at or below
    zero gives the result [+0]: the clamp leaves no trace of how far below
    zero the estimate was. *)
Theorem calculateBodyAge_clamps_to_zero (a h w : js.Number) (g : string) :
  js.ToBoolean (js.Num a) = true ->
  js.ToBoolean (js.Str g) = true ->
  js.ToBoolean (js.Num h) = true ->
  js.ToBoolean (js.Num w) = true ->
  le_Number (js.Num h) js.zero = false ->
  le_Number (js.Num w) js.zero = false ->
  let bodyFat :=
    if String.eqb (toLowerCase g) "male"
    then js.male_bodyFat (js.bmi_of h w) a
    else js.female_bodyFat (js.bmi_of h w) a in
  SFleb (js.bodyAgeRaw_of a bodyFat) js.zero = true ->
  calculateBodyAge (js.Num a) (js.Str g) (js.Num h) (js.Num w)
  = js.Normal (js.Num js.zero).
Proof.
  intros Ha Hg Hh Hw Hh0 Hw0 bodyFat Hraw.
  assert (Hc : js.clamp0 (js.bodyAgeRaw_of a bodyFat) = js.zero).
  { revert Hraw. generalize (js.bodyAgeRaw_of a bodyFat) as raw.
    intros [[|]|[|]| |[|] m e]; cbn; intros H; try discriminate H; reflexivity. }
  unfold js.calculateBodyAge. rewrite Ha, Hg, Hh, Hw, Hh0, Hw0. cbn [negb orb].
  cbn [js.ToNumber js.plus_Number].
  assert (E : js.Math_max [js.zero;
                js.add a (js.mul (js.sub
                  (if String.eqb (toLowerCase g) "male"
                   then js.sub (js.add (js.mul js.n1_20
                          (js.div w (js.mul (js.div h js.n100) (js.div h js.n100))))
                          (js.mul js.n0_23 a)) js.n16_2
                   else js.sub (js.add (js.mul js.n1_20
                          (js.div w (js.mul (js.div h js.n100) (js.div h js.n100))))
                          (js.mul js.n0_23 a)) js.n5_4) js.n18) js.n0_5)] = js.zero).
  { subst bodyFat. destruct (String.eqb (toLowerCase g) "male"); exact Hc. }
  destruct (String.eqb (toLowerCase g) "male"); rewrite E; vm_compute; reflexivity.
Qed.

End Outcomes.

Lemma calculateBodyAge_clamps_to_zero_witness :
  sample.calc (js.Num js.n1) (js.Str "male") (js.Num sample.cm170) (js.Num sample.kg65)
  = js.Normal (js.Num js.zero).
Proof.
  apply (calculateBodyAge_clamps_to_zero js.toLowerCase_ascii sample.StringToNumber0
           sample.NumberToString0 js.n1 sample.cm170 sample.kg65 "male");
    vm_compute; reflexivity.
Defined.

(** * The middleware and the profile route *)

Lemma split_without_separator (sep : ascii) (s : string) :
  server.occurs sep s = false -> server.split sep s = [s].
Proof.
  induction s as [|c s IH]; cbn [server.occurs server.split]; [reflexivity|].
  intros H. apply orb_false_iff in H as [Hc Hs].
  rewrite Hc, (IH Hs). reflexivity.
Qed.

Lemma split_at_separator (sep : ascii) (a b : string) :
  server.occurs sep a = false ->
  server.split sep (String.append a (String sep b)) = a :: server.split sep b.
Proof.
  induction a as [|c a IH]; intros H.
  - change (String.append EmptyString (String sep b)) with (String sep b).
    cbn [server.split]. rewrite Ascii.eqb_refl. reflexivity.
  - cbn [server.occurs] in H. apply orb_false_iff in H as [Hc Ha].
    change (String.append (String c a) (String sep b))
      with (String c (String.append a (String sep b))).
    cbn [server.split]. rewrite Hc, (IH Ha). reflexivity.
Qed.

Lemma append_not_empty (a b : string) :
  String.eqb (String.append a (String " " b)) "" = false.
Proof. destruct a; reflexivity. Qed.

Lemma token_of_second_word (scheme tok : string) :
  server.occurs " " scheme = false -> server.occurs " " tok = false ->
  server.token_of (Some (String.append scheme (String " " tok))) = Some tok.
Proof.
  intros Hs Ht. unfold server.token_of.
  rewrite append_not_empty, split_at_separator by exact Hs.
  rewrite split_without_separator by exact Ht. reflexivity.
Qed.

Lemma DecodedToken_eta (d : server.DecodedToken) :
  {| server.uid := server.uid d; server.email := server.email d;
     server.name := server.name d; server.picture := server.picture d;
     server.email_verified := server.email_verified d |} = d.
Proof. destruct d; reflexivity. Qed.

(** X17: [authenticateToken] verifies the second word of the
    Authorization header and never looks at the first: with any scheme in
    the place of "Bearer", a non-empty token that the SDK accepts is
    accepted, and
    [req.user] is the user of that token. *)
Theorem authenticateToken_ignores_scheme
  (env : server.Env) (scheme tok : string) (user : server.DecodedToken) :
  server.occurs " " scheme = false ->
  server.occurs " " tok = false ->
  tok <> EmptyString ->
  server.firebaseApp env = true ->
  server.admin_verifyIdToken env tok = Some user ->
  server.authenticateToken env (Some (String.append scheme (String " " tok)))
  = server.Next user.
Proof.
  intros Hs Ht Hne Hf Hv. unfold server.authenticateToken.
  rewrite token_of_second_word by assumption.
  destruct tok as [|c tok]; [contradiction|].
  unfold server.verifyIdToken. rewrite Hf, Hv. cbn [negb].
  rewrite !DecodedToken_eta. reflexivity.
Qed.

Lemma authenticateToken_ignores_scheme_witness :
  server.authenticateToken fixture.env0 (Some "Basic token-of-alice")
  = server.Next fixture.alice.
Proof.
  apply (authenticateToken_ignores_scheme fixture.env0 "Basic" "token-of-alice");
    [reflexivity|reflexivity|discriminate|reflexivity|reflexivity].
Defined.

(** X18: a request gets 401 MISSING_TOKEN, whatever the token service
    would say, when it has no Authorization header, when the header is a
    single word, and when the first space of the header is at its end or
    followed by another space: then even a valid token after the two spaces
    is not looked at. *)
Theorem authenticateToken_missing_token (env : server.Env) (header : option string) :
  header = None \/
  (exists h, header = Some h /\ server.occurs " " h = false) \/
  (exists scheme, header = Some (String.append scheme " ") /\
                  server.occurs " " scheme = false) \/
  (exists scheme rest, header = Some (String.append scheme (String " " (String " " rest))) /\
                       server.occurs " " scheme = false) ->
  server.authenticateToken env header = server.Respond server.missing_token.
Proof.
  unfold server.authenticateToken, server.token_of.
  intros [->|[(h & -> & Hh)|[(scheme & -> & Hs)|(scheme & rest & -> & Hs)]]].
  - reflexivity.
  - destruct (String.eqb h "") eqn:E; [reflexivity|].
    rewrite split_without_separator by exact Hh. reflexivity.
  - rewrite append_not_empty, split_at_separator by exact Hs. reflexivity.
  - rewrite append_not_empty, split_at_separator by exact Hs.
    cbn [server.split]. reflexivity.
Qed.

Lemma authenticateToken_missing_token_witness :
  server.admin_verifyIdToken fixture.env0 "token-of-alice" = Some fixture.alice /\
  server.authenticateToken fixture.env0 (Some "Bearer  token-of-alice")
  = server.Respond server.missing_token.
Proof.
  split; [reflexivity|].
  apply (authenticateToken_missing_token fixture.env0).
  right. right. right. exists "Bearer", "token-of-alice". split; reflexivity.
Defined.

(** ** The route *)

Lemma authenticateToken_Next (env : server.Env) (header : option string)
  (user : server.DecodedToken) :
  server.authenticateToken env header = server.Next user ->
  exists token, server.token_of header = Some token /\
                server.firebaseApp env = true /\
                server.admin_verifyIdToken env token = Some user.
Proof.
  unfold server.authenticateToken, server.verifyIdToken.
  destruct (server.token_of header) as [[|c token]|]; try discriminate.
  destruct (server.firebaseApp env); cbn [negb]; [|discriminate].
  destruct (server.admin_verifyIdToken env (String c token)) as [d|] eqn:V;
    [|discriminate].
  rewrite !DecodedToken_eta. intros [= <-].
  exists (String c token). repeat split. exact V.
Qed.

(** X19: the route writes at most once, and only for the user whose
    token the SDK has verified: whenever it calls Firestore, the call is a
    single merge into the document of that user, the four fields of the
    body are all truthy, and the stored body age is what [calculateBodyAge]
    returned for them. *)
Theorem update_profile_writes_are_authorised
  (env : server.Env) (req : server.Request) (uid : string) (data : server.Profile) :
  In (server.Set_merge uid data) (snd (server.update_profile env req)) ->
  exists token user,
    server.token_of (server.authorization req) = Some token /\
    server.admin_verifyIdToken env token = Some user /\
    uid = server.uid user /\
    snd (server.update_profile env req) = [server.Set_merge uid data] /\
    data = {| server.height := server.body_height (server.body req);
              server.weight := server.body_weight (server.body req);
              server.age := server.body_age (server.body req);
              server.gender := server.body_gender (server.body req);
              server.bodyAge := server.bodyAge data;
              server.profileLastUpdated := server.now_ISO env |} /\
    js.ToBoolean (server.height data) = true /\
    js.ToBoolean (server.weight data) = true /\
    js.ToBoolean (server.age data) = true /\
    js.ToBoolean (server.gender data) = true /\
    js.calculateBodyAge (server.toLowerCase env) (server.StringToNumber env)
      (server.NumberToString env)
      (server.age data) (server.gender data) (server.height data) (server.weight data)
    = js.Normal (server.bodyAge data).
Proof.
  unfold server.update_profile.
  destruct (server.authenticateToken env (server.authorization req)) as [r|user] eqn:A;
    [intros []|].
  apply authenticateToken_Next in A as (token & Ht & Hf & Hv).
  unfold server.update_profile_handler, server.updateUserProfile. rewrite Hf.
  cbn [negb].
  destruct (js.ToBoolean (server.body_height (server.body req))) eqn:Hh;
    [|intros []].
  destruct (js.ToBoolean (server.body_weight (server.body req))) eqn:Hw;
    [|intros []].
  destruct (js.ToBoolean (server.body_age (server.body req))) eqn:Ha;
    [|intros []].
  destruct (js.ToBoolean (server.body_gender (server.body req))) eqn:Hg;
    [|intros []].
  cbn [negb orb].
  destruct (js.calculateBodyAge _ _ _ _ _ _ _) as [bodyAge|] eqn:C; [|intros []].
  intros H.
  assert (E : server.Set_merge uid data
              = server.Set_merge (server.uid user)
                  {| server.height := server.body_height (server.body req);
                     server.weight := server.body_weight (server.body req);
                     server.age := server.body_age (server.body req);
                     server.gender := server.body_gender (server.body req);
                     server.bodyAge := bodyAge;
                     server.profileLastUpdated := server.now_ISO env |}).
  { destruct (server.firestore_set env _ _); cbn [snd] in H;
      destruct H as [H|[]]; symmetry; exact H. }
  injection E as -> ->. exists token, user.
  cbn [server.height server.weight server.age server.gender server.bodyAge].
  repeat split; try assumption.
  destruct (server.firestore_set env _ _); reflexivity.
Qed.

Lemma update_profile_writes_are_authorised_witness :
  exists data,
    In (server.Set_merge "u-alice" data)
       (snd (server.update_profile fixture.env0
               (fixture.request "Bearer token-of-alice"
                  (js.Num sample.cm170) (js.Num sample.kg65)
                  (js.Num sample.thirty) (js.Str "Male")))) /\
    server.bodyAge data = js.Num (S754_finite false 8387954305977549 (-48)).
Proof.
  eexists. split; [left; vm_compute; reflexivity|].
  destruct (update_profile_writes_are_authorised fixture.env0
              (fixture.request "Bearer token-of-alice"
                 (js.Num sample.cm170) (js.Num sample.kg65)
                 (js.Num sample.thirty) (js.Str "Male"))
              "u-alice"
              {| server.height := js.Num sample.cm170;
                 server.weight := js.Num sample.kg65;
                 server.age := js.Num sample.thirty;
                 server.gender := js.Str "Male";
                 server.bodyAge := js.Num (S754_finite false 8387954305977549 (-48));
                 server.profileLastUpdated := "2024-05-17T04:00:15.123Z" |})
    as (token & user & _).
  - left. vm_compute. reflexivity.
  - reflexivity.
Defined.

(** X20: the route answers 200 exactly when it has made its one write
    and Firestore has accepted it; the profile in the answer is the profile
    written. *)
Theorem update_profile_success_iff (env : server.Env) (req : server.Request) :
  server.status (fst (server.update_profile env req)) = 200%Z <->
  exists uid data,
    snd (server.update_profile env req) = [server.Set_merge uid data] /\
    server.firestore_set env uid data = None /\
    server.payload (fst (server.update_profile env req)) = server.ProfilePayload data.
Proof.
  unfold server.update_profile.
  destruct (server.authenticateToken env (server.authorization req)) as [r|user] eqn:A.
  - unfold server.authenticateToken in A.
    split.
    + intros H. exfalso.
      destruct (server.token_of (server.authorization req)) as [[|c t]|];
        try (injection A as <-; discriminate H).
      destruct (server.verifyIdToken env (String c t)); [discriminate A|].
      injection A as <-. discriminate H.
    + intros (uid & data & H & _). discriminate H.
  - apply authenticateToken_Next in A as (token & Ht & Hf & Hv).
    unfold server.update_profile_handler, server.updateUserProfile. rewrite Hf.
    cbn [negb].
    destruct (negb (js.ToBoolean (server.body_height (server.body req)))
              || negb (js.ToBoolean (server.body_weight (server.body req)))
              || negb (js.ToBoolean (server.body_age (server.body req)))
              || negb (js.ToBoolean (server.body_gender (server.body req)))).
    { split; [discriminate|]. intros (uid & data & H & _). discriminate H. }
    destruct (js.calculateBodyAge _ _ _ _ _ _ _) as [bodyAge|].
    2:{ split; [discriminate|]. intros (uid & data & H & _). discriminate H. }
    destruct (server.firestore_set env _ _) as [msg|] eqn:F; cbn [fst snd].
    + split; [discriminate|]. intros (uid & data & H & F' & _).
      injection H as <- <-. congruence.
    + split; [|reflexivity]. intros _. eauto.
Qed.

(** X21: the route checks that height and weight are present, not that
    they are above zero. For an authenticated request whose four fields
    are truthy but whose height or weight is at most zero (a negative
    number), [calculateBodyAge] returns [null], and the route writes the
    profile with the body age [null]; when Firestore accepts the write the
    answer is 200. *)
Theorem update_profile_stores_null
  (env : server.Env) (req : server.Request) (user : server.DecodedToken) :
  server.authenticateToken env (server.authorization req) = server.Next user ->
  js.ToBoolean (server.body_height (server.body req)) = true ->
  js.ToBoolean (server.body_weight (server.body req)) = true ->
  js.ToBoolean (server.body_age (server.body req)) = true ->
  js.ToBoolean (server.body_gender (server.body req)) = true ->
  js.le_Number (server.StringToNumber env) (server.body_height (server.body req)) js.zero = true \/
  js.le_Number (server.StringToNumber env) (server.body_weight (server.body req)) js.zero = true ->
  let data :=
    {| server.height := server.body_height (server.body req);
       server.weight := server.body_weight (server.body req);
       server.age := server.body_age (server.body req);
       server.gender := server.body_gender (server.body req);
       server.bodyAge := js.Null;
       server.profileLastUpdated := server.now_ISO env |} in
  snd (server.update_profile env req) = [server.Set_merge (server.uid user) data] /\
  (server.firestore_set env (server.uid user) data = None ->
   server.status (fst (server.update_profile env req)) = 200%Z /\
   server.payload (fst (server.update_profile env req)) = server.ProfilePayload data).
Proof.
  intros A Hh Hw Ha Hg Hle data. unfold server.update_profile. rewrite A.
  apply authenticateToken_Next in A as (token & Ht & Hf & Hv).
  unfold server.update_profile_handler, server.updateUserProfile, js.calculateBodyAge.
  rewrite Hf, Hh, Hw, Ha, Hg. cbn [negb orb].
  assert (G : js.le_Number (server.StringToNumber env)
                (server.body_height (server.body req)) js.zero
              || js.le_Number (server.StringToNumber env)
                   (server.body_weight (server.body req)) js.zero = true).
  { destruct Hle as [-> | ->]; [reflexivity|apply orb_true_r]. }
  rewrite G. fold data.
  destruct (server.firestore_set env (server.uid user) data); cbn [fst snd].
  - split; [reflexivity|discriminate].
  - split; [reflexivity|]. intros _. split; reflexivity.
Qed.

Lemma update_profile_stores_null_witness :
  js.ToBoolean (js.Num fixture.minus170) = true /\
  server.update_profile fixture.env0
    (fixture.request "Bearer token-of-alice"
       (js.Num fixture.minus170) (js.Num sample.kg65)
       (js.Num sample.thirty) (js.Str "female"))
  = ({| server.status := 200; server.success := true;
        server.message := "Profile updated successfully";
        server.error_ := None;
        server.payload :=
          server.ProfilePayload
            {| server.height := js.Num fixture.minus170;
               server.weight := js.Num sample.kg65;
               server.age := js.Num sample.thirty;
               server.gender := js.Str "female";
               server.bodyAge := js.Null;
               server.profileLastUpdated := "2024-05-17T04:00:15.123Z" |} |},
     [server.Set_merge "u-alice"
        {| server.height := js.Num fixture.minus170;
           server.weight := js.Num sample.kg65;
           server.age := js.Num sample.thirty;
           server.gender := js.Str "female";
           server.bodyAge := js.Null;
           server.profileLastUpdated := "2024-05-17T04:00:15.123Z" |}]).
Proof.
  split; [reflexivity|].
  destruct (update_profile_stores_null fixture.env0
              (fixture.request "Bearer token-of-alice"
                 (js.Num fixture.minus170) (js.Num sample.kg65)
                 (js.Num sample.thirty) (js.Str "female"))
              fixture.alice eq_refl eq_refl eq_refl eq_refl eq_refl
              (or_introl eq_refl)) as [_ _].
  vm_compute. reflexivity.
Defined.

(** X22: a gender that is not a string makes the route fail: for an
    authenticated request whose other fields pass the estimator's guard and
    whose gender is [true] or a number other than zero, the answer is 500
    with the message of the TypeError, and nothing is written. *)
Theorem update_profile_gender_not_a_string
  (env : server.Env) (req : server.Request) (user : server.DecodedToken) :
  server.authenticateToken env (server.authorization req) = server.Next user ->
  (server.body_gender (server.body req) = js.Boolean true \/
   exists x, server.body_gender (server.body req) = js.Num x /\
             js.is_zero x = false /\ js.is_nan x = false) ->
  js.ToBoolean (server.body_height (server.body req)) = true ->
  js.ToBoolean (server.body_weight (server.body req)) = true ->
  js.ToBoolean (server.body_age (server.body req)) = true ->
  js.le_Number (server.StringToNumber env) (server.body_height (server.body req)) js.zero = false ->
  js.le_Number (server.StringToNumber env) (server.body_weight (server.body req)) js.zero = false ->
  server.update_profile env req
  = ({| server.status := 500; server.success := false;
        server.message := "Failed to update profile.";
        server.error_ := Some (server.TypeError_message env);
        server.payload := server.NoPayload |}, []).
Proof.
  intros A Hg Hh Hw Ha Hh0 Hw0. unfold server.update_profile. rewrite A.
  unfold server.update_profile_handler.
  assert (T : js.calculateBodyAge (server.toLowerCase env) (server.StringToNumber env)
                (server.NumberToString env)
                (server.body_age (server.body req)) (server.body_gender (server.body req))
                (server.body_height (server.body req)) (server.body_weight (server.body req))
              = js.ThrowTypeError).
  { unfold js.calculateBodyAge. rewrite Ha, Hh, Hw, Hh0, Hw0.
    destruct Hg as [->|(x & -> & Hz & Hn)]; cbn [js.ToBoolean negb orb];
      [reflexivity|].
    rewrite Hz, Hn. reflexivity. }
  rewrite T, Hh, Hw, Ha.
  destruct Hg as [->|(x & -> & Hz & Hn)]; cbn [js.ToBoolean negb orb];
    [reflexivity|].
  rewrite Hz, Hn. reflexivity.
Qed.

Lemma update_profile_gender_not_a_string_witness :
  server.update_profile fixture.env0
    (fixture.request "Bearer token-of-alice"
       (js.Num sample.cm170) (js.Num sample.kg65)
       (js.Num sample.thirty) (js.Boolean true))
  = ({| server.status := 500; server.success := false;
        server.message := "Failed to update profile.";
        server.error_ := Some "gender.toLowerCase is not a function";
        server.payload := server.NoPayload |}, []).
Proof.
  apply (update_profile_gender_not_a_string fixture.env0 _ fixture.alice);
    try reflexivity.
  left. reflexivity.
Defined.

(** X23: a request in which one of the four fields is missing or falsy
    never reaches Firestore: it is answered 400 when the token is
    accepted, and 401 otherwise. *)
Theorem update_profile_rejects_incomplete (env : server.Env) (req : server.Request) :
  js.ToBoolean (server.body_height (server.body req)) = false \/
  js.ToBoolean (server.body_weight (server.body req)) = false \/
  js.ToBoolean (server.body_age (server.body req)) = false \/
  js.ToBoolean (server.body_gender (server.body req)) = false ->
  snd (server.update_profile env req) = [] /\
  match server.authenticateToken env (server.authorization req) with
  | server.Next _ => server.status (fst (server.update_profile env req)) = 400%Z
  | server.Respond _ => server.status (fst (server.update_profile env req)) = 401%Z
  end.
Proof.
  intros H. unfold server.update_profile.
  destruct (server.authenticateToken env (server.authorization req)) as [r|user] eqn:A.
  - split; [reflexivity|]. unfold server.authenticateToken in A.
    destruct (server.token_of (server.authorization req)) as [[|c t]|];
      try (injection A as <-; reflexivity).
    destruct (server.verifyIdToken env (String c t)); [discriminate A|].
    injection A as <-. reflexivity.
  - unfold server.update_profile_handler.
    assert (G : negb (js.ToBoolean (server.body_height (server.body req)))
                || negb (js.ToBoolean (server.body_weight (server.body req)))
                || negb (js.ToBoolean (server.body_age (server.body req)))
                || negb (js.ToBoolean (server.body_gender (server.body req))) = true).
    { destruct H as [->|[->|[->| ->]]]; cbn [negb orb];
        rewrite ?orb_true_r; reflexivity. }
    rewrite G. split; reflexivity.
Qed.

Lemma update_profile_rejects_incomplete_witness :
  snd (server.update_profile fixture.env0
         (fixture.request "Bearer token-of-alice"
            (js.Num sample.cm170) js.Undefined
            (js.Num sample.thirty) (js.Str "female"))) = [] /\
  server.status (fst (server.update_profile fixture.env0
         (fixture.request "Bearer token-of-alice"
            (js.Num sample.cm170) js.Undefined
            (js.Num sample.thirty) (js.Str "female")))) = 400%Z.
Proof.
  apply (update_profile_rejects_incomplete fixture.env0
           (fixture.request "Bearer token-of-alice"
              (js.Num sample.cm170) js.Undefined
              (js.Num sample.thirty) (js.Str "female"))).
  right. left. reflexivity.
Defined.

(** ** [requireAdmin] *)

(** X24: when the variable TO_EMAIL is not set, every authenticated
    user whose token carries no e-mail claim passes [requireAdmin],
    whatever ADMIN_EMAILS lists: the comparison of the two is
    [undefined === undefined]. *)
Theorem requireAdmin_without_email (env : server.Env) (user : server.DecodedToken) :
  server.TO_EMAIL env = None ->
  server.email user = js.Undefined ->
  server.requireAdmin env (Some user) = server.Grant.
Proof.
  intros Ht He. unfold server.requireAdmin. rewrite Ht, He.
  cbn [server.includes server.env_value server.strict_equal orb negb]. reflexivity.
Qed.

Lemma requireAdmin_without_email_witness :
  server.authenticateToken fixture.env0 (Some "Bearer token-of-guest")
  = server.Next fixture.guest /\
  server.requireAdmin fixture.env0 (Some fixture.guest) = server.Grant /\
  server.requireAdmin fixture.env0 (Some fixture.alice) <> server.Grant.
Proof.
  split; [reflexivity|]. split; [|discriminate].
  apply requireAdmin_without_email; reflexivity.
Defined.

(** * The blood-pressure ranges *)

Lemma SFcompare_antisym (a b : js.Number) :
  SFcompare b a = option_map CompOpp (SFcompare a b).
Proof.
  destruct a as [sa|sa| |sa ma ea], b as [sb|sb| |sb mb eb]; cbn;
    try reflexivity; try (destruct sa; reflexivity); try (destruct sb; reflexivity);
    try (destruct sa, sb; reflexivity).
  change (PosDef.Pos.compare_cont Eq) with Pos.compare.
  rewrite (Z.compare_antisym ea eb), (Pos.compare_antisym ma mb).
  destruct sa, sb; try reflexivity;
    destruct (ea ?= eb)%Z; cbn; try reflexivity;
    destruct (ma ?= mb)%positive; reflexivity.
Qed.

Lemma SFleb_false_iff (a b : js.Number) :
  js.is_nan a = false -> js.is_nan b = false ->
  (SFleb b a = false <-> SFltb a b = true).
Proof.
  intros Ha Hb. unfold SFleb, SFltb. rewrite (SFcompare_antisym a b).
  destruct (SFcompare a b) as [[| |]|] eqn:C; cbn;
    try (split; intros; congruence).
  destruct a, b; cbn in *; discriminate.
Qed.

Lemma below_10_below_30 (age : js.Number) :
  SFltb age (vitals.int 10) = true -> SFltb age (vitals.int 30) = true.
Proof.
  change (vitals.int 10) with (S754_finite false 5629499534213120 (-49)).
  change (vitals.int 30) with (S754_finite false 8444249301319680 (-48)).
  destruct age as [s|[|]| |[|] m e]; try (intros _; reflexivity); try discriminate.
  unfold SFltb, SFcompare.
  destruct (Z.compare_spec e (-49)) as [->| |]; [intros _; reflexivity| |discriminate].
  intros _. destruct (Z.compare_spec e (-48)); [lia|reflexivity|lia].
Qed.

(** X25: [getBloodPressureRanges] has a gap between its two brackets:
    it returns the default ranges exactly for an age below 10, for an age
    that is not a number, and for every age strictly between 29 and 30,
    which belongs to neither bracket. *)
Theorem getBloodPressureRanges_default_iff (age : js.Number) :
  vitals.getBloodPressureRanges age = vitals.default_ranges <->
  js.is_nan age = true \/
  SFltb age (vitals.int 10) = true \/
  (SFltb (vitals.int 29) age = true /\ SFltb age (vitals.int 30) = true).
Proof.
  unfold vitals.getBloodPressureRanges, vitals.ge, vitals.le.
  destruct (js.is_nan age) eqn:N.
  - destruct age; try discriminate N. cbn. split; [auto|reflexivity].
  - pose proof (SFleb_false_iff age (vitals.int 10) N eq_refl) as H10.
    pose proof (SFleb_false_iff (vitals.int 29) age eq_refl N) as H29.
    pose proof (SFleb_false_iff age (vitals.int 30) N eq_refl) as H30.
    pose proof (below_10_below_30 age) as T.
    destruct (SFleb (vitals.int 10) age) eqn:C10;
      destruct (SFleb age (vitals.int 29)) eqn:C29;
      destruct (SFleb (vitals.int 30) age) eqn:C30; cbn [andb];
      (split; [intros E; try discriminate E|intros [F|[L|[L1 L2]]]; try discriminate F]);
      try reflexivity.
    all: try (right; left; apply H10; reflexivity).
    all: try (right; right; split; [apply H29|apply H30]; reflexivity).
    all: try (apply H10 in L; discriminate L).
    all: try (apply H29 in L1; discriminate L1).
    all: try (apply H30 in L2; discriminate L2).
    all: try (apply T, H30 in L; discriminate L).
Qed.

(** * [Stop], once and again *)






